(** * aurora.interface.cycling.technique_widget

    A shallow embedding of [technique_widget.py]: the function
    [build_parameter_widget], which maps one cycling parameter to a row of
    three widgets, and the class [TechniqueParametersWidget], which stacks one
    such row per parameter of a technique and reads the entered values back.

    Modelling boundary.  The Python objects the module handles (classes, typing
    annotations, scalar values) are an inductive universe; [typing.get_args],
    [typing.get_origin] and [issubclass] are functions on it.  An ipywidgets
    widget is the record of the traits the module passes, reads or writes
    ([value], [disabled], [min], [max], [options], the registered observers).
    [wp_value] is the [value] trait as the control holds it: a bounded numeric
    input keeps its value within its bounds and starts at zero when it is given
    no value, a text field starts empty.  [wp_min] and [wp_max] are the
    keywords as the module passes them.  A value that is not of the type of
    its control (which a validated parameter does not have, and the front end
    does not send) is outside the model, as is rendering.  Exceptions are an
    explicit result type. *)

From Stdlib Require Import ZArith String List Bool DecimalString.
From Stdlib Require Import Floats.SpecFloat.
From stdpp Require Import base option list strings gmap.

Local Open Scope string_scope.
Local Open Scope Z_scope.
Local Open Scope list_scope.
Set Warnings "-register-all".

(** ** Exceptions *)

Inductive exn :=
| TypeError
| ValueError
| IndexError
| AttributeError
| NotImplementedError.

Inductive result (A : Type) :=
| Ok (a : A)
| Raise (e : exn).
Arguments Ok {A} a.
Arguments Raise {A} e.

#[global] Instance exn_eq_dec : EqDecision exn.
Proof. solve_decision. Defined.

#[global] Instance result_ret : MRet result := fun A a => Ok a.
#[global] Instance result_bind : MBind result := fun A B f m =>
  match m with
  | Ok a => f a
  | Raise e => Raise e
  end.

(** ** Python objects *)

(** Classes.  [issubclass] follows the method resolution order; the pydantic
    (v1) constrained number types are subclasses of [int] and [float].
    [UserClass name base] is any other class, deriving from [base]. *)
Inductive pyclass :=
| py_object
| NoneType
| py_bool
| py_int
| py_float
| py_str
| ConstrainedInt
| ConstrainedFloat
| NonNegativeInt
| NonNegativeFloat
| UserClass (name : string) (base : pyclass).

#[global] Instance pyclass_eq_dec : EqDecision pyclass.
Proof. solve_decision. Defined.

Fixpoint mro (c : pyclass) : list pyclass :=
  c :: match c with
       | py_object => []
       | NoneType | py_int | py_float | py_str => [py_object]
       | py_bool => [py_int; py_object]
       | ConstrainedInt => [py_int; py_object]
       | ConstrainedFloat => [py_float; py_object]
       | NonNegativeInt => [ConstrainedInt; py_int; py_object]
       | NonNegativeFloat => [ConstrainedFloat; py_float; py_object]
       | UserClass _ base => mro base
       end.

(** Scalar values; a Python float is an IEEE 754 binary64 number. *)
Inductive pyvalue :=
| VNone
| VBool (b : bool)
| VInt (z : Z)
| VFloat (f : spec_float)
| VStr (s : string).

(** Typing annotations: a class, [Literal[...]], [Union[...]] (so
    [Optional[T]] is [TUnion [T; TClass NoneType]]), a parametrised generic
    alias such as [List[float]], or a type variable. *)
Inductive pytype :=
| TClass (c : pyclass)
| TLiteral (args : list pyvalue)
| TUnion (args : list pytype)
| TAlias (origin : pyclass) (args : list pytype)
| TTypeVar (name : string).

(** What a tuple returned by [get_args] may hold. *)
Inductive pyobj :=
| OType (t : pytype)
| OValue (v : pyvalue).

(** [typing.Optional[t]], that is [Union[t, None]]: unions are flattened and
    [Optional[None]] is [NoneType] itself. *)
Definition Optional (t : pytype) : pytype :=
  match t with
  | TClass NoneType => TClass NoneType
  | TUnion args =>
      if existsb
           (fun a => match a with TClass NoneType => true | _ => false end)
           args
      then TUnion args
      else TUnion (args ++ [TClass NoneType])
  | _ => TUnion [t; TClass NoneType]
  end.

(** [typing.get_args] *)
Definition get_args (o : pyobj) : list pyobj :=
  match o with
  | OType (TLiteral args) => OValue <$> args
  | OType (TUnion args) => OType <$> args
  | OType (TAlias _ args) => OType <$> args
  | OType (TClass _) | OType (TTypeVar _) | OValue _ => []
  end.

Inductive origin :=
| OriginNone
| OriginLiteral
| OriginUnion
| OriginClass (c : pyclass).

(** [typing.get_origin] *)
Definition get_origin (o : pyobj) : origin :=
  match o with
  | OType (TLiteral _) => OriginLiteral
  | OType (TUnion _) => OriginUnion
  | OType (TAlias c _) => OriginClass c
  | OType (TClass _) | OType (TTypeVar _) | OValue _ => OriginNone
  end.

Definition is_Literal (g : origin) : bool :=
  match g with OriginLiteral => true | _ => false end.

(** [o == c] for a class [c]: only the class itself compares equal. *)
Definition is_class (c : pyclass) (o : pyobj) : bool :=
  match o with
  | OType (TClass c') => bool_decide (c' = c)
  | _ => false
  end.

(** [issubclass(o, c)]: raises [TypeError] unless [o] is a class. *)
Definition issubclass (o : pyobj) (c : pyclass) : result bool :=
  match o with
  | OType (TClass c') => Ok (bool_decide (c ∈ mro c'))
  | _ => Raise TypeError
  end.

Definition is_not_None (v : pyvalue) : bool :=
  match v with VNone => false | _ => true end.

(** The float literals of the module: [0.], [1.e99] (also written [1e99])
    and [-1.e99]. *)
Definition float_0 : spec_float := S754_zero false.
Definition float_1e99 : spec_float := S754_finite false 8236092143148846 276.
Definition float_neg_1e99 : spec_float := SFopp float_1e99.

(** ** The schema objects *)

(** Modelled from the spec: the class [CyclingParameter] is declared in
    [aurora.schemas.cycling], which is not among the sources; a "parameter
    schema" is "a declarative description of a technique's configurable values
    (type, default, bounds, label)".  The record has the attributes that
    [build_parameter_widget] reads; [annotations_value] is
    [param_obj.__annotations__['value']]. *)
Module CyclingParameter.
Record t := {
  label : string;
  description : string;
  units : string;
  value : pyvalue;
  default_value : pyvalue;
  required : bool;
  annotations_value : pytype
}.
End CyclingParameter.

(** An argument of [build_parameter_widget]: a [CyclingParameter] instance
    or some other object. *)
Inductive pyarg :=
| AParam (p : CyclingParameter.t)
| AOther (v : pyvalue).

(** ** Widgets *)

Definition css := list (string * string).

Definition CHECKBOX_STYLE : css := [("description_width", "5px")].
Definition CHECKBOX_LAYOUT : css := [("width", "8%")].
Definition BOX_STYLE : css := [("description_width", "initial")].

(** The closures registered as observers; the module defines one. *)
Inductive handler := enable_w_param_closure.

Record Checkbox := {
  ck_value : bool;
  ck_disabled : bool;
  ck_description : string;
  ck_style : css;
  ck_layout : css;
  ck_observers : list (handler * string)   (* handler, names= *)
}.

Inductive widget_class :=
| Dropdown
| BoundedFloatText
| BoundedIntText
| Text.

Inductive option_item :=
| OptObj (o : pyobj)                     (* an element of a tuple of options *)
| OptPair (lbl : string) (v : pyvalue).  (* a (label, value) pair *)

Record ValueWidget := {
  wp_class : widget_class;
  wp_description : string;
  wp_placeholder : option string;
  wp_options : list option_item;
  wp_min : option pyvalue;
  wp_max : option pyvalue;
  wp_value : pyvalue;
  wp_style : css;
  wp_disabled : bool
}.

Record HTMLMath := { html_value : string }.

(** The [HBox([w_check, w_param, w_units])] a parameter is rendered as:
    [children[0]] is [w_check], [children[1]] is [w_param]. *)
Record ParameterRow := {
  w_check : Checkbox;
  w_param : ValueWidget;
  w_units : HTMLMath
}.

Definition set_disabled (d : bool) (w : ValueWidget) : ValueWidget :=
  {| wp_class := wp_class w; wp_description := wp_description w;
     wp_placeholder := wp_placeholder w; wp_options := wp_options w;
     wp_min := wp_min w; wp_max := wp_max w; wp_value := wp_value w;
     wp_style := wp_style w; wp_disabled := d |}.

Definition set_value (v : pyvalue) (w : ValueWidget) : ValueWidget :=
  {| wp_class := wp_class w; wp_description := wp_description w;
     wp_placeholder := wp_placeholder w; wp_options := wp_options w;
     wp_min := wp_min w; wp_max := wp_max w; wp_value := v;
     wp_style := wp_style w; wp_disabled := wp_disabled w |}.

Definition set_ck_value (b : bool) (c : Checkbox) : Checkbox :=
  {| ck_value := b; ck_disabled := ck_disabled c;
     ck_description := ck_description c; ck_style := ck_style c;
     ck_layout := ck_layout c; ck_observers := ck_observers c |}.

(** [w_check.observe(h, names=n)] *)
Definition observe (h : handler) (n : string) (c : Checkbox) : Checkbox :=
  {| ck_value := ck_value c; ck_disabled := ck_disabled c;
     ck_description := ck_description c; ck_style := ck_style c;
     ck_layout := ck_layout c; ck_observers := ck_observers c ++ [(h, n)] |}.

(** The closure [enable_w_param] of a row: it reads the row's [w_check] and
    writes the row's [w_param]. *)
Definition enable_w_param (row : ParameterRow) : ParameterRow :=
  {| w_check := w_check row;
     w_param := set_disabled (negb (ck_value (w_check row))) (w_param row);
     w_units := w_units row |}.

Definition run_handler (h : handler) (row : ParameterRow) : ParameterRow :=
  match h with
  | enable_w_param_closure => enable_w_param row
  end.

Definition HBox (c : Checkbox) (p : ValueWidget) (u : HTMLMath)
    : ParameterRow :=
  {| w_check := c; w_param := p; w_units := u |}.

(** [w_check.observe(h, names=n)] on the checkbox of a row. *)
Definition observe_check (h : handler) (n : string) (row : ParameterRow)
    : ParameterRow :=
  {| w_check := observe h n (w_check row);
     w_param := w_param row;
     w_units := w_units row |}.

(** The observers registered for the trait [n] of the checkbox run, in the
    order of their registration. *)
Definition notify (n : string) (row : ParameterRow) : ParameterRow :=
  foldl (fun r hn => if bool_decide (hn.2 = n) then run_handler hn.1 r else r)
        row (ck_observers (w_check row)).

(** Assignment to the [value] trait of the checkbox of a row: the observers
    are notified when the value changes. *)
Definition assign_check_value (b : bool) (row : ParameterRow) : ParameterRow :=
  let old := ck_value (w_check row) in
  let row' := {| w_check := set_ck_value b (w_check row);
                 w_param := w_param row;
                 w_units := w_units row |} in
  if bool_decide (old = b) then row' else notify "value" row'.

(** The invariant the closure is there for. *)
Definition enable_invariant (row : ParameterRow) : Prop :=
  wp_disabled (w_param row) = negb (ck_value (w_check row)).

(** What holds of a row from the moment it is built. *)
Definition row_built (row : ParameterRow) : Prop :=
  ck_observers (w_check row) = [(enable_w_param_closure, "value")] /\
  enable_invariant row.

(** ** The value a control holds *)

#[global] Instance spec_float_eq_dec : EqDecision spec_float.
Proof. solve_decision. Defined.

#[global] Instance pyvalue_eq_dec : EqDecision pyvalue.
Proof. solve_decision. Defined.

(** The validator of a bounded float: [min(max(value, lo), hi)] when
    [lo > value or hi < value], the value itself otherwise (so a NaN stays). *)
Definition clamp_float (lo hi v : spec_float) : spec_float :=
  if SFltb v lo || SFltb hi v then
    let m := if SFltb v lo then lo else v in
    if SFltb hi m then hi else m
  else v.

(** The same for a bounded int. *)
Definition clamp_int (lo hi z : Z) : Z :=
  if (z <? lo) || (hi <? z) then Z.min (Z.max z lo) hi else z.

(** [int(f)]: truncation towards zero; there is none for a NaN or an
    infinity. *)
Definition int_of_float (f : spec_float) : option Z :=
  match f with
  | S754_zero _ => Some 0
  | S754_finite s m e =>
      let a := if 0 <=? e then Z.pos m * 2 ^ e else Z.pos m / 2 ^ (- e) in
      Some (if s then - a else a)
  | S754_infinity _ | S754_nan => None
  end.

(** The bounds of a float control are the floats it was given; those of an int
    control are its [min] and [max] cast to int. *)
Definition float_bound (b : pyvalue) : option spec_float :=
  match b with
  | VFloat f => Some f
  | _ => None
  end.

Definition int_bound (b : pyvalue) : option Z :=
  match b with
  | VInt z => Some z
  | VFloat f => int_of_float f
  | _ => None
  end.

Definition bounded_float_value (min max : pyvalue) (v : spec_float)
    : spec_float :=
  match float_bound min, float_bound max with
  | Some lo, Some hi => clamp_float lo hi v
  | _, _ => v
  end.

Definition bounded_int_value (min max : pyvalue) (z : Z) : Z :=
  match int_bound min, int_bound max with
  | Some lo, Some hi => clamp_int lo hi z
  | _, _ => z
  end.

(** The [value] a control starts with, given the keyword [value]: [None]
    counts as not given, so that a bounded float starts at 0.0, a bounded int
    at 0 and a text at the empty string; a number is kept within the
    bounds. *)
Definition BoundedFloatText_value (min max value : pyvalue) : pyvalue :=
  match value with
  | VNone => VFloat (bounded_float_value min max float_0)
  | VFloat f => VFloat (bounded_float_value min max f)
  | _ => value
  end.

Definition BoundedIntText_value (min max value : pyvalue) : pyvalue :=
  match value with
  | VNone => VInt (bounded_int_value min max 0)
  | VInt z => VInt (bounded_int_value min max z)
  | _ => value
  end.

Definition Text_value (value : pyvalue) : pyvalue :=
  match value with
  | VNone => VStr ""
  | _ => value
  end.

(** The values among the options of a dropdown. *)
Definition option_values (w : ValueWidget) : list pyvalue :=
  omap (fun o => match o with
                 | OptObj (OValue v) => Some v
                 | OptObj (OType _) => None
                 | OptPair _ v => Some v
                 end) (wp_options w).

(** What a control takes of what the user enters: a dropdown one of its
    options, a text field a string, a bounded numeric input a number of its
    type, kept within the bounds.  The front end sends nothing else. *)
Definition take_entry (w : ValueWidget) (v : pyvalue) : option pyvalue :=
  match wp_class w, v with
  | Dropdown, _ =>
      if bool_decide (v ∈ option_values w) then Some v else None
  | Text, VStr _ => Some v
  | BoundedFloatText, VFloat f =>
      Some (VFloat (bounded_float_value (default VNone (wp_min w))
                                        (default VNone (wp_max w)) f))
  | BoundedIntText, VInt z =>
      Some (VInt (bounded_int_value (default VNone (wp_min w))
                                    (default VNone (wp_max w)) z))
  | _, _ => None
  end.
Arguments take_entry : simpl never.

(** What the user can do to a rendered row: click the checkbox, or enter a
    value in the value control.  A disabled control ignores the user. *)
Inductive user_event :=
| ClickCheckbox
| EnterValue (v : pyvalue).

Definition user_step (ev : user_event) (row : ParameterRow) : ParameterRow :=
  match ev with
  | ClickCheckbox =>
      if ck_disabled (w_check row) then row
      else assign_check_value (negb (ck_value (w_check row))) row
  | EnterValue v =>
      if wp_disabled (w_param row) then row
      else
        match take_entry (w_param row) v with
        | Some v' => {| w_check := w_check row;
                        w_param := set_value v' (w_param row);
                        w_units := w_units row |}
        | None => row
        end
  end.

(** What can happen to the checkbox of a row: a program assigns its [value],
    or the user acts on the row. *)
Inductive row_event :=
| AssignCheckValue (b : bool)
| UserEvent (ev : user_event).

Definition row_step (row : ParameterRow) (e : row_event) : ParameterRow :=
  match e with
  | AssignCheckValue b => assign_check_value b row
  | UserEvent ev => user_step ev row
  end.

(** The widget constructors, with the keyword arguments the module passes.
    A dropdown that is given [value=None] has no selection.  The bounded
    inputs and the text field hold the value their validation makes of the
    keyword; [wp_min] and [wp_max] record the keywords, which an int input
    casts to int ([int_bound]) where it compares with them. *)
Definition ipw_Checkbox (value disabled : bool) (description : string)
    (style layout : css) : Checkbox :=
  {| ck_value := value; ck_disabled := disabled; ck_description := description;
     ck_style := style; ck_layout := layout; ck_observers := [] |}.

Definition ipw_Dropdown (description placeholder : string)
    (options : list option_item) (value : pyvalue) (style : css)
    : ValueWidget :=
  {| wp_class := Dropdown; wp_description := description;
     wp_placeholder := Some placeholder; wp_options := options;
     wp_min := None; wp_max := None; wp_value := value; wp_style := style;
     wp_disabled := false |}.

Definition ipw_BoundedFloatText (description : string) (min max value : pyvalue)
    (style : css) : ValueWidget :=
  {| wp_class := BoundedFloatText; wp_description := description;
     wp_placeholder := None; wp_options := [];
     wp_min := Some min; wp_max := Some max;
     wp_value := BoundedFloatText_value min max value;
     wp_style := style; wp_disabled := false |}.

Definition ipw_BoundedIntText (description : string) (min max value : pyvalue)
    (style : css) : ValueWidget :=
  {| wp_class := BoundedIntText; wp_description := description;
     wp_placeholder := None; wp_options := [];
     wp_min := Some min; wp_max := Some max;
     wp_value := BoundedIntText_value min max value;
     wp_style := style; wp_disabled := false |}.

Definition ipw_Text (description placeholder : string) (value : pyvalue)
    (style : css) : ValueWidget :=
  {| wp_class := Text; wp_description := description;
     wp_placeholder := Some placeholder; wp_options := [];
     wp_min := None; wp_max := None; wp_value := Text_value value;
     wp_style := style; wp_disabled := false |}.

(** The [value] a control of class [cls] with the bounds [min] and [max]
    starts with when its constructor is given [value]. *)
Definition start_value (cls : widget_class) (min max : option pyvalue)
    (value : pyvalue) : pyvalue :=
  match cls with
  | Dropdown => value
  | Text => Text_value value
  | BoundedFloatText =>
      BoundedFloatText_value (default VNone min) (default VNone max) value
  | BoundedIntText =>
      BoundedIntText_value (default VNone min) (default VNone max) value
  end.


(** ** The technique and the widget object *)

(** A Python [dict] with string keys: the items in insertion order, the keys
    pairwise distinct. *)
Record pydict (V : Type) := {
  items : list (string * V);
  keys_unique : NoDup (items.*1)
}.
Arguments items {V} _.
Arguments keys_unique {V} _.

Definition mk_dict {V : Type} (l : list (string * V))
    (H : Is_true (bool_decide (NoDup (l.*1)))) : pydict V :=
  {| items := l; keys_unique := bool_decide_unpack _ H |}.

(** Modelled from the spec: the technique classes are declared in
    [aurora.schemas.cycling], which is not among the sources.  The record has
    the class of the object and the attributes that
    [TechniqueParametersWidget.__init__] reads; [annotations_device] is
    [technique.__annotations__['device']]; [parameters] is the technique's
    "parameter schema". *)
Module Technique.
Record t := {
  cls : pyclass;
  short_name : string;
  description : string;
  name : string;
  annotations_device : pytype;
  parameters : pydict CyclingParameter.t
}.
End Technique.

(** [isinstance(obj, classes)] for an object of class [c] *)
Definition isinstance (c : pyclass) (classes : list pyclass) : bool :=
  existsb (fun k => bool_decide (k ∈ mro c)) classes.

Record DeviceDropdown := {
  dd_description : string;
  dd_options : list pyobj;
  dd_value : pyobj;
  dd_style : css
}.

Record HTML := { HTML_value : string }.

(** The children of the widget refer to the objects its attributes hold. *)
Inductive attr_ref :=
| ref_w_name
| ref_w_device
| ref_w_tech_label
| ref_w_tech_parameters.

Inductive child :=
| ChildHBox (cs : list attr_ref)
| ChildRef (r : attr_ref).

Definition kwargs := list (string * pyvalue).

(** The instance under construction: an attribute is [None] until it is
    assigned.  [w_tech_parameters] holds the children of the [VBox] of rows;
    [vbox_init] records the keyword arguments handed to [VBox.__init__]. *)
Record TechniqueParametersWidget := {
  tech_short_name : option string;
  tech_description : option string;
  w_name : option ValueWidget;
  w_device : option DeviceDropdown;
  w_tech_label : option HTML;
  tech_parameters_names : option (list string);
  w_tech_parameters : option (list ParameterRow);
  vbox_init : option kwargs;
  children : option (list child)
}.

Definition new_object : TechniqueParametersWidget :=
  {| tech_short_name := None; tech_description := None; w_name := None;
     w_device := None; w_tech_label := None; tech_parameters_names := None;
     w_tech_parameters := None; vbox_init := None; children := None |}.

(** ** build_parameter_widget *)

Section TechniqueWidget.

(** [float.__repr__], the one part of [str()] that is left to the
    interpreter. *)
Variable float_repr : spec_float -> string.

(** The tuple [get_args(ElectroChemPayloads)]: the union of the technique
    classes is declared in [aurora.schemas.cycling]. *)
Variable ElectroChemPayloads_args : list pyclass.

(** [str(v)] *)
Definition str (v : pyvalue) : string :=
  match v with
  | VNone => "None"
  | VBool true => "True"
  | VBool false => "False"
  | VInt z => NilZero.string_of_int (Z.to_int z)
  | VFloat f => float_repr f
  | VStr s => s
  end.

(** Line 35: the value of the parameter, or the default value when the value
    is [None]. *)
Definition param_value_of (param_obj : CyclingParameter.t) : pyvalue :=
  if is_not_None (CyclingParameter.value param_obj)
  then CyclingParameter.value param_obj
  else CyclingParameter.default_value param_obj.

(** Lines 36-40: the arguments of the annotation of [value], [NoneType]
    discarded. *)
Definition types_of (param_obj : CyclingParameter.t) : list pyobj :=
  let value_type := OType (CyclingParameter.annotations_value param_obj) in
  List.filter (fun t => negb (is_class NoneType t)) (get_args value_type).

(** Lines 42-53: the type to dispatch on, and the value to show. *)
Definition pick_value_type (types : list pyobj) (param_value : pyvalue)
    : result (pyobj * pyvalue) :=
  if bool_decide (1 < length types)%nat then
    if existsb (is_class py_str) types
    then Ok (OType (TClass py_str), VStr (str param_value))
    else Raise NotImplementedError
  else
    match types with
    | t :: _ => Ok (t, param_value)
    | [] => Raise IndexError
    end.

(** Lines 55-95: the value control. *)
Definition make_w_param (param_obj : CyclingParameter.t) (value_type : pyobj)
    (param_value : pyvalue) : result ValueWidget :=
  if is_Literal (get_origin value_type) then
    Ok (ipw_Dropdown (CyclingParameter.label param_obj)
          (CyclingParameter.description param_obj)
          (OptObj <$> get_args value_type) param_value BOX_STYLE)
  else
    is_bool ← issubclass value_type py_bool;
    if is_bool : bool then
      Ok (ipw_Dropdown (CyclingParameter.label param_obj)
            (CyclingParameter.description param_obj)
            [OptPair "False" (VBool false); OptPair "True" (VBool true)]
            param_value BOX_STYLE)
    else
      is_float ← issubclass value_type py_float;
      if is_float : bool then
        let '(value_min, value_max) :=
          if is_class NonNegativeFloat value_type
          then (VFloat float_0, VFloat float_1e99)
          else (VFloat float_neg_1e99, VFloat float_1e99) in
        Ok (ipw_BoundedFloatText (CyclingParameter.label param_obj)
              value_min value_max param_value BOX_STYLE)
      else
        is_int ← issubclass value_type py_int;
        if is_int : bool then
          let '(value_min, value_max) :=
            if is_class NonNegativeInt value_type
            then (VInt 0, VFloat float_1e99)
            else (VFloat float_neg_1e99, VFloat float_1e99) in
          Ok (ipw_BoundedIntText (CyclingParameter.label param_obj)
                value_min value_max param_value BOX_STYLE)
        else
          is_str ← issubclass value_type py_str;
          if is_str : bool then
            Ok (ipw_Text (CyclingParameter.label param_obj) "" param_value
                  BOX_STYLE)
          else Raise NotImplementedError.

(** Lines 102-104 *)
Definition make_w_units (param_obj : CyclingParameter.t) : HTMLMath :=
  {| html_value :=
       if bool_decide (CyclingParameter.description param_obj = "") then ""
       else CyclingParameter.units param_obj +:+ "&nbsp&nbsp&nbsp (<i>"
            +:+ CyclingParameter.description param_obj +:+ "</i>)" |}.

Definition build_parameter_widget (param_obj : pyarg) : result ParameterRow :=
  match param_obj with
  | AOther _ => Raise TypeError
  | AParam param_obj =>
    let w_check :=
      ipw_Checkbox
        (CyclingParameter.required param_obj
         || is_not_None (CyclingParameter.value param_obj))
        (CyclingParameter.required param_obj)
        "" CHECKBOX_STYLE CHECKBOX_LAYOUT in
    let param_value := param_value_of param_obj in
    let types := types_of param_obj in
    '(value_type, param_value) ← pick_value_type types param_value;
    w_param ← make_w_param param_obj value_type param_value;
    (* enable_w_param(); w_check.observe(enable_w_param, names='value');
       the closure does not touch w_units, which the source builds last *)
    let w_units := make_w_units param_obj in
    Ok (observe_check enable_w_param_closure "value"
          (enable_w_param (HBox w_check w_param w_units)))
  end.

(** ** TechniqueParametersWidget.__init__ *)

(** The constructor runs on the instance: a computation takes the instance
    and returns it, updated, with a result or the exception raised. *)
Definition init_m (A : Type) : Type :=
  TechniqueParametersWidget -> TechniqueParametersWidget * result A.

#[local] Instance init_ret : MRet init_m := fun A a self => (self, Ok a).
#[local] Instance init_bind : MBind init_m := fun A B f m self =>
  match m self with
  | (self', Ok a) => f a self'
  | (self', Raise e) => (self', Raise e)
  end.

Definition raise {A : Type} (e : exn) : init_m A := fun self => (self, Raise e).

Definition lift {A : Type} (r : result A) : init_m A := fun self => (self, r).

(** Reading an attribute that was never assigned raises AttributeError. *)
Definition getattr {A : Type} (o : option A) : result A :=
  match o with
  | Some a => Ok a
  | None => Raise AttributeError
  end.

Definition read {A : Type} (attr : TechniqueParametersWidget -> option A)
    : init_m A :=
  fun self => (self, getattr (attr self)).

Definition assign (f : TechniqueParametersWidget -> TechniqueParametersWidget)
    : init_m unit :=
  fun self => (f self, Ok tt).

Definition set_tech_short_name (v : string) (s : TechniqueParametersWidget) :=
  {| tech_short_name := Some v; tech_description := tech_description s;
     w_name := w_name s; w_device := w_device s;
     w_tech_label := w_tech_label s;
     tech_parameters_names := tech_parameters_names s;
     w_tech_parameters := w_tech_parameters s; vbox_init := vbox_init s;
     children := children s |}.

Definition set_tech_description (v : string) (s : TechniqueParametersWidget) :=
  {| tech_short_name := tech_short_name s; tech_description := Some v;
     w_name := w_name s; w_device := w_device s;
     w_tech_label := w_tech_label s;
     tech_parameters_names := tech_parameters_names s;
     w_tech_parameters := w_tech_parameters s; vbox_init := vbox_init s;
     children := children s |}.

Definition set_w_name (v : ValueWidget) (s : TechniqueParametersWidget) :=
  {| tech_short_name := tech_short_name s;
     tech_description := tech_description s;
     w_name := Some v; w_device := w_device s;
     w_tech_label := w_tech_label s;
     tech_parameters_names := tech_parameters_names s;
     w_tech_parameters := w_tech_parameters s; vbox_init := vbox_init s;
     children := children s |}.

Definition set_w_device (v : DeviceDropdown) (s : TechniqueParametersWidget) :=
  {| tech_short_name := tech_short_name s;
     tech_description := tech_description s;
     w_name := w_name s; w_device := Some v;
     w_tech_label := w_tech_label s;
     tech_parameters_names := tech_parameters_names s;
     w_tech_parameters := w_tech_parameters s; vbox_init := vbox_init s;
     children := children s |}.

Definition set_w_tech_label (v : HTML) (s : TechniqueParametersWidget) :=
  {| tech_short_name := tech_short_name s;
     tech_description := tech_description s;
     w_name := w_name s; w_device := w_device s;
     w_tech_label := Some v;
     tech_parameters_names := tech_parameters_names s;
     w_tech_parameters := w_tech_parameters s; vbox_init := vbox_init s;
     children := children s |}.

Definition set_tech_parameters_names (v : list string)
    (s : TechniqueParametersWidget) :=
  {| tech_short_name := tech_short_name s;
     tech_description := tech_description s;
     w_name := w_name s; w_device := w_device s;
     w_tech_label := w_tech_label s;
     tech_parameters_names := Some v;
     w_tech_parameters := w_tech_parameters s; vbox_init := vbox_init s;
     children := children s |}.

Definition set_w_tech_parameters (v : list ParameterRow)
    (s : TechniqueParametersWidget) :=
  {| tech_short_name := tech_short_name s;
     tech_description := tech_description s;
     w_name := w_name s; w_device := w_device s;
     w_tech_label := w_tech_label s;
     tech_parameters_names := tech_parameters_names s;
     w_tech_parameters := Some v; vbox_init := vbox_init s;
     children := children s |}.

Definition set_vbox_init (v : kwargs) (s : TechniqueParametersWidget) :=
  {| tech_short_name := tech_short_name s;
     tech_description := tech_description s;
     w_name := w_name s; w_device := w_device s;
     w_tech_label := w_tech_label s;
     tech_parameters_names := tech_parameters_names s;
     w_tech_parameters := w_tech_parameters s; vbox_init := Some v;
     children := children s |}.

Definition set_children (v : list child) (s : TechniqueParametersWidget) :=
  {| tech_short_name := tech_short_name s;
     tech_description := tech_description s;
     w_name := w_name s; w_device := w_device s;
     w_tech_label := w_tech_label s;
     tech_parameters_names := tech_parameters_names s;
     w_tech_parameters := w_tech_parameters s; vbox_init := vbox_init s;
     children := Some v |}.

(** [self.tech_parameters_names.append(pname)] *)
Definition tech_parameters_names_append (pname : string) : init_m unit :=
  fun self =>
    match tech_parameters_names self with
    | Some names => (set_tech_parameters_names (names ++ [pname]) self, Ok tt)
    | None => (self, Raise AttributeError)
    end.

(** The loop over [technique.parameters.items()]; [w_parameters_children] is
    the local list the rows are appended to. *)
Fixpoint loop_over_parameters (its : list (string * CyclingParameter.t))
    (w_parameters_children : list ParameterRow) : init_m (list ParameterRow) :=
  match its with
  | [] => mret w_parameters_children
  | (pname, pobj) :: its =>
      _ ← tech_parameters_names_append pname;
      w ← lift (build_parameter_widget (AParam pobj));
      loop_over_parameters its (w_parameters_children ++ [w])
  end.

Definition __init__ (technique : Technique.t) (kw : kwargs) : init_m unit :=
  if negb (isinstance (Technique.cls technique) ElectroChemPayloads_args)
  then raise ValueError
  else
    _ ← assign (set_tech_short_name (Technique.short_name technique));
    _ ← assign (set_tech_description (Technique.description technique));
    _ ← assign (set_w_name
                  (ipw_Text "Step label:" "Enter a custom name"
                            (VStr (Technique.name technique)) []));
    let device_options :=
      get_args (OType (Technique.annotations_device technique)) in
    device_0 ← lift (match device_options with
                     | o :: _ => Ok o
                     | [] => Raise IndexError
                     end);
    _ ← assign (set_w_device
                  {| dd_description := "Device:";
                     dd_options := device_options;
                     dd_value := device_0;
                     dd_style := BOX_STYLE |});
    self_tech_description ← read tech_description;
    _ ← assign (set_w_tech_label
                  {| HTML_value := "<b>Technique:</b> <i>"
                                   +:+ self_tech_description +:+ "</i>" |});
    _ ← assign (set_tech_parameters_names []);
    w_parameters_children ←
      loop_over_parameters (items (Technique.parameters technique)) [];
    _ ← assign (set_w_tech_parameters w_parameters_children);
    _ ← assign (set_vbox_init kw);
    assign (set_children [ChildHBox [ref_w_name; ref_w_device];
                          ChildRef ref_w_tech_label;
                          ChildRef ref_w_tech_parameters]).

(** ** The properties *)

Definition tech_name (self : TechniqueParametersWidget) : result pyvalue :=
  w ← getattr (w_name self); Ok (wp_value w).

(** Return list of parameters values. If a parameter is disabled, its value
    will be None. *)
Definition tech_parameters_values (self : TechniqueParametersWidget)
    : result (list pyvalue) :=
  ws ← getattr (w_tech_parameters self);
  Ok (map (fun w => if ck_value (w_check w) then wp_value (w_param w)
                    else VNone) ws).

(** The entry of [tech_parameters_values] for one row. *)
Definition read_row (w : ParameterRow) : pyvalue :=
  if ck_value (w_check w) then wp_value (w_param w) else VNone.

(** One step of the dict comprehension: the pair [pname: pvalue] is inserted
    if [pvalue is not None], replacing an earlier pair with the same key. *)
Definition keep_selected (d : gmap string pyvalue) (kv : string * pyvalue)
    : gmap string pyvalue :=
  if is_not_None kv.2 then <[kv.1 := kv.2]> d else d.

Definition selected_tech_parameters (self : TechniqueParametersWidget)
    : result (gmap string pyvalue) :=
  names ← getattr (tech_parameters_names self);
  values ← tech_parameters_values self;
  Ok (foldl keep_selected ∅ (zip names values)).

(** ** The user at the widget *)

(** The user acts on the row at position [i] of [w_tech_parameters]. *)
Definition interact (i : nat) (ev : user_event)
    (self : TechniqueParametersWidget) : TechniqueParametersWidget :=
  match w_tech_parameters self with
  | Some ws => set_w_tech_parameters (alter (user_step ev) i ws) self
  | None => self
  end.

(** The instances a caller can hold: built by the constructor without an
    exception, then used. *)
Inductive constructed : TechniqueParametersWidget -> Prop :=
| constructed_init technique kw self :
    __init__ technique kw new_object = (self, Ok tt) ->
    constructed self
| constructed_interact i ev self :
    constructed self ->
    constructed (interact i ev self).

(** What the constructor leaves behind when it returns: the attributes of
    the instance, given the rows built for the parameters. *)
Definition initialised (technique : Technique.t) (kw : kwargs)
    (device_options : list pyobj) (device_0 : pyobj)
    (rows : list ParameterRow) : TechniqueParametersWidget :=
  {| tech_short_name := Some (Technique.short_name technique);
     tech_description := Some (Technique.description technique);
     w_name := Some (ipw_Text "Step label:" "Enter a custom name"
                              (VStr (Technique.name technique)) []);
     w_device := Some {| dd_description := "Device:";
                         dd_options := device_options;
                         dd_value := device_0;
                         dd_style := BOX_STYLE |};
     w_tech_label := Some {| HTML_value := "<b>Technique:</b> <i>"
                                           +:+ Technique.description technique
                                           +:+ "</i>" |};
     tech_parameters_names :=
       Some ((items (Technique.parameters technique)).*1);
     w_tech_parameters := Some rows;
     vbox_init := Some kw;
     children := Some [ChildHBox [ref_w_name; ref_w_device];
                       ChildRef ref_w_tech_label;
                       ChildRef ref_w_tech_parameters] |}.

(** A row was built from the parameter of an item of the schema. *)
Definition built_from (kp : string * CyclingParameter.t) (row : ParameterRow)
    : Prop :=
  build_parameter_widget (AParam kp.2) = Ok row.

(** The names and the rows of an instance are both there, the names are
    pairwise distinct and there are as many rows as names. *)
Definition names_match_rows (self : TechniqueParametersWidget)
    (names : list string) (rows : list ParameterRow) : Prop :=
  tech_parameters_names self = Some names /\
  w_tech_parameters self = Some rows /\
  NoDup names /\
  length names = length rows.

(** The value handed to the constructor of the value control: the value
    picked at line 35, as a string (lines 45-47) when several types are
    declared. *)
Definition initial_value (param_obj : CyclingParameter.t) : pyvalue :=
  if bool_decide (1 < length (types_of param_obj))%nat
  then VStr (str (param_value_of param_obj))
  else param_value_of param_obj.

(** A session at the widget: the user acts on one row after the other; an
    event comes with the position of its row. *)
Definition interactions (evs : list (nat * user_event))
    (self : TechniqueParametersWidget) : TechniqueParametersWidget :=
  foldl (fun s e => interact e.1 e.2 s) self evs.

(** What a row keeps of the parameter it was built from, whatever the user
    does: the observer and the invariant of the row, a checkbox that is
    disabled exactly for a required parameter, and checked for one. *)
Definition row_of_parameter (kp : string * CyclingParameter.t)
    (row : ParameterRow) : Prop :=
  row_built row /\
  ck_disabled (w_check row) = CyclingParameter.required kp.2 /\
  (CyclingParameter.required kp.2 = true -> ck_value (w_check row) = true).

End TechniqueWidget.

Arguments build_parameter_widget float_repr param_obj : simpl never.

(** ** Sample schema objects *)

(** A [repr] for the floats that occur in the samples. *)
Definition sample_float_repr (f : spec_float) : string :=
  match f with
  | S754_zero false => "0.0"
  | _ => "nan"
  end.

Definition mk_param (label description units : string)
    (value default_value : pyvalue) (required : bool) (data_t : pytype)
    : CyclingParameter.t :=
  {| CyclingParameter.label := label;
     CyclingParameter.description := description;
     CyclingParameter.units := units; CyclingParameter.value := value;
     CyclingParameter.default_value := default_value;
     CyclingParameter.required := required;
     CyclingParameter.annotations_value := Optional data_t |}.

(** CyclingParameter[NonNegativeFloat] *)
Definition sample_time : CyclingParameter.t :=
  mk_param "Time:" "The length of the step" "s"
           (VFloat float_0) VNone true (TClass NonNegativeFloat).

(** CyclingParameter[Union[float, str]] *)
Definition sample_current : CyclingParameter.t :=
  mk_param "Current:" "Current applied" "I"
           VNone (VFloat float_0) true
           (TUnion [TClass py_float; TClass py_str]).

(** CyclingParameter[Literal["keep", "100 pA"]] *)
Definition sample_range : CyclingParameter.t :=
  mk_param "I range" "" ""
           VNone (VStr "keep") false (TLiteral [VStr "keep"; VStr "100 pA"]).

(** CyclingParameter[NonNegativeInt] *)
Definition sample_goto : CyclingParameter.t :=
  mk_param "Go to:" "" "" VNone (VInt 0) false (TClass NonNegativeInt).

(** CyclingParameter[float] without a value and without a default value *)
Definition sample_unset : CyclingParameter.t :=
  mk_param "Limit:" "Upper limit" "V" VNone VNone true (TClass py_float).

(** CyclingParameter[List[float]] *)
Definition sample_list : CyclingParameter.t :=
  mk_param "Points:" "" "" VNone VNone false
           (TAlias (UserClass "list" py_object) [TClass py_float]).

(** CyclingParameter[complex] *)
Definition sample_complex : CyclingParameter.t :=
  mk_param "Z:" "" "" VNone VNone false
           (TClass (UserClass "complex" py_object)).

(** The payload classes and two techniques: an open circuit voltage step, and
    one with a parameter of a type that has no widget. *)
Definition sample_payloads : list pyclass :=
  [UserClass "OpenCircuitVoltage" (UserClass "CyclingTechnique" py_object);
   UserClass "ConstantCurrent" (UserClass "CyclingTechnique" py_object)].

Definition sample_technique : Technique.t :=
  {| Technique.cls :=
       UserClass "OpenCircuitVoltage" (UserClass "CyclingTechnique" py_object);
     Technique.short_name := "OCV";
     Technique.description := "Open circuit voltage";
     Technique.name := "OCV";
     Technique.annotations_device := TLiteral [VStr "worker"];
     Technique.parameters :=
       mk_dict [("time", sample_time); ("I_range", sample_range)] I |}.

Definition sample_bad_technique : Technique.t :=
  {| Technique.cls :=
       UserClass "OpenCircuitVoltage" (UserClass "CyclingTechnique" py_object);
     Technique.short_name := "OCV";
     Technique.description := "Open circuit voltage";
     Technique.name := "OCV";
     Technique.annotations_device := TLiteral [VStr "worker"];
     Technique.parameters :=
       mk_dict [("time", sample_time); ("impedance", sample_complex)] I |}.

(** The widget of the open circuit voltage step, as the constructor leaves
    it. *)
Definition sample_widget : TechniqueParametersWidget :=
  (__init__ sample_float_repr sample_payloads sample_technique []
            new_object).1.

(** Its rows: the one of "time" and the one of "I_range". *)
Definition sample_rows : list ParameterRow :=
  default [] (w_tech_parameters sample_widget).

Definition sample_time_row : ParameterRow :=
  match sample_rows with
  | row :: _ => row
  | [] => HBox (ipw_Checkbox false false "" [] []) (ipw_Text "" "" VNone [])
               {| html_value := "" |}
  end.

Definition sample_range_row : ParameterRow :=
  match sample_rows with
  | _ :: row :: _ => row
  | _ => sample_time_row
  end.

(** A technique with a required limit that has neither a value nor a
    default value. *)
Definition sample_limit_technique : Technique.t :=
  {| Technique.cls :=
       UserClass "ConstantCurrent" (UserClass "CyclingTechnique" py_object);
     Technique.short_name := "CC";
     Technique.description := "Constant current";
     Technique.name := "CC";
     Technique.annotations_device := TLiteral [VStr "worker"];
     Technique.parameters :=
       mk_dict [("limit_voltage_max", sample_unset)] I |}.

Definition sample_limit_widget : TechniqueParametersWidget :=
  (__init__ sample_float_repr sample_payloads sample_limit_technique []
            new_object).1.

(** A technique whose device annotation is a plain class. *)
Definition sample_no_device : Technique.t :=
  {| Technique.cls :=
       UserClass "OpenCircuitVoltage" (UserClass "CyclingTechnique" py_object);
     Technique.short_name := "OCV";
     Technique.description := "Open circuit voltage";
     Technique.name := "OCV";
     Technique.annotations_device := TClass py_str;
     Technique.parameters := mk_dict [("time", sample_time)] I |}.

(** CyclingParameter[Union[float, str]] holding an expression *)
Definition sample_expression : CyclingParameter.t :=
  mk_param "Current:" "Current applied" "I"
           (VStr "0.1 * C") (VFloat float_0) true
           (TUnion [TClass py_float; TClass py_str]).

(** ** Properties of the type dispatch *)

Section BuildProperties.

Variable float_repr : spec_float -> string.

(** The literal [1e99] denotes the binary64 number nearest to ten to the
    power 99. *)
Lemma float_1e99_nearest :
  float_1e99 = S754_finite false 8236092143148846 276 /\
  (2 ^ 52 <= 8236092143148846 < 2 ^ 53) /\
  2 * Z.abs (8236092143148846 * 2 ^ 276 - 10 ^ 99) <= 2 ^ 276.
Proof. split; [reflexivity|]. split; [lia|]. vm_compute. discriminate. Qed.

(** A class derives from at most one of [float], [int] and [str], and [bool]
    derives from [int]. *)
Lemma mro_exclusive (c : pyclass) :
  (py_float ∈ mro c -> (py_int ∉ mro c) /\ (py_str ∉ mro c)) /\
  (py_int ∈ mro c -> py_str ∉ mro c) /\
  (py_bool ∈ mro c -> py_int ∈ mro c).
Proof.
  induction c as [| | | | | | | | | |n b IH]; simpl;
    rewrite ?elem_of_cons, ?elem_of_nil;
    intuition (try discriminate).
Qed.

Lemma mro_float_not_bool (c : pyclass) :
  py_float ∈ mro c -> py_bool ∉ mro c.
Proof. pose proof (mro_exclusive c). tauto. Qed.

Lemma mro_str_not_number (c : pyclass) :
  py_str ∈ mro c ->
  (py_bool ∉ mro c) /\ (py_float ∉ mro c) /\ (py_int ∉ mro c).
Proof. pose proof (mro_exclusive c). tauto. Qed.

(** The stages of a successful call. *)
Lemma build_Ok_inv (p : CyclingParameter.t) (row : ParameterRow) :
  build_parameter_widget float_repr (AParam p) = Ok row ->
  exists vt pv w,
    pick_value_type float_repr (types_of p) (param_value_of p) = Ok (vt, pv) /\
    make_w_param p vt pv = Ok w /\
    row = observe_check enable_w_param_closure "value"
            (enable_w_param
               (HBox (ipw_Checkbox
                        (CyclingParameter.required p
                         || is_not_None (CyclingParameter.value p))
                        (CyclingParameter.required p)
                        "" CHECKBOX_STYLE CHECKBOX_LAYOUT)
                     w (make_w_units p))).
Proof.
  unfold build_parameter_widget. intros H.
  destruct (pick_value_type _ _ _) as [[vt pv]|e] eqn:Hpick; simpl in H;
    [|discriminate].
  destruct (make_w_param p vt pv) as [w|e] eqn:Hmk; simpl in H; [|discriminate].
  exists vt, pv, w. split; [done|]. split; [done|]. congruence.
Qed.

Lemma pick_value_type_Ok (types : list pyobj) (pv : pyvalue) (vt : pyobj)
    (pv' : pyvalue) :
  pick_value_type float_repr types pv = Ok (vt, pv') ->
  (types = [vt] /\ pv' = pv) \/
  ((1 < length types)%nat /\ OType (TClass py_str) ∈ types /\
   vt = OType (TClass py_str) /\ pv' = VStr (str float_repr pv)).
Proof.
  unfold pick_value_type. case_bool_decide as Hlen.
  - destruct (existsb _ _) eqn:Hstr; [|discriminate].
    intros [= <- <-]. right. split; [done|]. split; [|done].
    apply existsb_exists in Hstr as (t & Hin & Ht).
    apply list_elem_of_In.
    destruct t as [[c| | | |]|]; simpl in Ht; try discriminate.
    apply bool_decide_eq_true in Ht. by subst.
  - destruct types as [|t [|t' ts]]; simpl in *; [discriminate| |lia].
    intros [= <- <-]. by left.
Qed.

(** The value control of a class: the branches of the [elif] chain. *)
Lemma make_w_param_class (p : CyclingParameter.t) (c : pyclass) (pv : pyvalue) :
  make_w_param p (OType (TClass c)) pv =
  if bool_decide (py_bool ∈ mro c) then
    Ok (ipw_Dropdown (CyclingParameter.label p) (CyclingParameter.description p)
          [OptPair "False" (VBool false); OptPair "True" (VBool true)]
          pv BOX_STYLE)
  else if bool_decide (py_float ∈ mro c) then
    Ok (ipw_BoundedFloatText (CyclingParameter.label p)
          (if bool_decide (c = NonNegativeFloat) then VFloat float_0
           else VFloat float_neg_1e99)
          (VFloat float_1e99) pv BOX_STYLE)
  else if bool_decide (py_int ∈ mro c) then
    Ok (ipw_BoundedIntText (CyclingParameter.label p)
          (if bool_decide (c = NonNegativeInt) then VInt 0
           else VFloat float_neg_1e99)
          (VFloat float_1e99) pv BOX_STYLE)
  else if bool_decide (py_str ∈ mro c) then
    Ok (ipw_Text (CyclingParameter.label p) "" pv BOX_STYLE)
  else Raise NotImplementedError.
Proof.
  unfold make_w_param. simpl.
  repeat (case_bool_decide; simpl; try reflexivity).
Qed.

Lemma make_w_param_Literal (p : CyclingParameter.t) (args : list pyvalue)
    (pv : pyvalue) :
  make_w_param p (OType (TLiteral args)) pv =
  Ok (ipw_Dropdown (CyclingParameter.label p) (CyclingParameter.description p)
        ((fun a => OptObj (OValue a)) <$> args) pv BOX_STYLE).
Proof.
  unfold make_w_param. simpl. by rewrite <- list_fmap_compose.
Qed.

(** Anything that is neither a class nor a [Literal] makes [issubclass]
    raise. *)
Lemma make_w_param_not_a_class (p : CyclingParameter.t) (vt : pyobj)
    (pv : pyvalue) :
  (forall c, vt <> OType (TClass c)) ->
  (forall args, vt <> OType (TLiteral args)) ->
  make_w_param p vt pv = Raise TypeError.
Proof.
  intros Hc Hl. destruct vt as [[c|args|args|o args|n]|v]; try reflexivity.
  - by destruct (Hc c).
  - by destruct (Hl args).
Qed.

Lemma make_w_param_Ok (p : CyclingParameter.t) (vt : pyobj) (pv : pyvalue)
    (w : ValueWidget) :
  make_w_param p vt pv = Ok w ->
  wp_description w = CyclingParameter.label p /\
  wp_value w = start_value (wp_class w) (wp_min w) (wp_max w) pv /\
  wp_disabled w = false /\
  ((exists args, vt = OType (TLiteral args)) \/
   (exists c, vt = OType (TClass c) /\
      (py_bool ∈ mro c \/ py_float ∈ mro c \/ py_int ∈ mro c \/
       py_str ∈ mro c))).
Proof.
  destruct vt as [[c|args|args|o args|n]|v]; try discriminate.
  - rewrite make_w_param_class.
    destruct (bool_decide (py_bool ∈ mro c)) eqn:Hb;
      [apply bool_decide_eq_true in Hb; intros [= <-]; eauto 10|].
    destruct (bool_decide (py_float ∈ mro c)) eqn:Hf;
      [apply bool_decide_eq_true in Hf; intros [= <-]; eauto 10|].
    destruct (bool_decide (py_int ∈ mro c)) eqn:Hi;
      [apply bool_decide_eq_true in Hi; intros [= <-]; eauto 10|].
    destruct (bool_decide (py_str ∈ mro c)) eqn:Hs;
      [apply bool_decide_eq_true in Hs; intros [= <-]; eauto 10|].
    discriminate.
  - rewrite make_w_param_Literal. intros [= <-]. eauto 10.
Qed.

Lemma make_w_param_Raise (p : CyclingParameter.t) (vt : pyobj) (pv : pyvalue)
    (e : exn) :
  make_w_param p vt pv = Raise e -> e = TypeError \/ e = NotImplementedError.
Proof.
  destruct vt as [[c|args|args|o args|n]|v]; try (intros [= <-]; by left).
  - rewrite make_w_param_class.
    repeat (case_bool_decide; [discriminate|]). intros [= <-]. by right.
Qed.

Lemma build_never_ValueError (arg : pyarg) :
  build_parameter_widget float_repr arg <> Raise ValueError.
Proof.
  unfold build_parameter_widget. destruct arg as [p|v]; [|discriminate].
  destruct (pick_value_type _ _ _) as [[vt pv]|e] eqn:Hpick; simpl.
  - destruct (make_w_param p vt pv) as [w|e] eqn:Hmk; simpl; [discriminate|].
    apply make_w_param_Raise in Hmk as [-> | ->]; discriminate.
  - unfold pick_value_type in Hpick.
    repeat case_match; simplify_eq; discriminate.
Qed.

(** C1: for every CyclingParameter that build_parameter_widget accepts, the
    value control follows the declared type of [value] with NoneType
    discarded: a Literal gives a Dropdown whose options are the arguments of
    the Literal, bool gives a Dropdown with the options ('False', False) and
    ('True', True), a float type gives a BoundedFloatText, an int type a
    BoundedIntText, str a Text; several types with str among them give a Text
    that shows the string representation of the value.  These are all the
    accepted cases. *)
Theorem build_parameter_widget_dispatch (p : CyclingParameter.t)
    (row : ParameterRow) :
  build_parameter_widget float_repr (AParam p) = Ok row ->
  let w := w_param row in
  (forall args, types_of p = [OType (TLiteral args)] ->
     wp_class w = Dropdown /\
     wp_options w = (fun a => OptObj (OValue a)) <$> args) /\
  (forall c, types_of p = [OType (TClass c)] -> py_bool ∈ mro c ->
     wp_class w = Dropdown /\
     wp_options w = [OptPair "False" (VBool false);
                     OptPair "True" (VBool true)]) /\
  (forall c, types_of p = [OType (TClass c)] -> py_float ∈ mro c ->
     wp_class w = BoundedFloatText) /\
  (forall c, types_of p = [OType (TClass c)] -> py_int ∈ mro c ->
     py_bool ∉ mro c ->
     wp_class w = BoundedIntText) /\
  (forall c, types_of p = [OType (TClass c)] -> py_str ∈ mro c ->
     wp_class w = Text /\ wp_value w = Text_value (param_value_of p)) /\
  ((1 < length (types_of p))%nat ->
     OType (TClass py_str) ∈ types_of p /\
     wp_class w = Text /\
     wp_value w = VStr (str float_repr (param_value_of p))) /\
  ((exists args, types_of p = [OType (TLiteral args)]) \/
   (exists c, types_of p = [OType (TClass c)] /\
      (py_bool ∈ mro c \/ py_float ∈ mro c \/ py_int ∈ mro c \/
       py_str ∈ mro c)) \/
   (1 < length (types_of p))%nat).
Proof.
  intros H. apply build_Ok_inv in H as (vt & pv & w0 & Hpick & Hmk & ->).
  simpl.
  apply pick_value_type_Ok in Hpick
    as [[Hty ->]|(Hlen & Hstr & -> & ->)].
  - rewrite Hty.
    repeat split; intros; simplify_eq/=; try lia;
      try (pose proof (mro_exclusive c);
           rewrite make_w_param_class in Hmk;
           repeat (first
             [ rewrite bool_decide_eq_true_2 in Hmk by tauto
             | rewrite bool_decide_eq_false_2 in Hmk by tauto ]);
           by simplify_eq);
      try (rewrite make_w_param_Literal in Hmk; by simplify_eq).
    apply make_w_param_Ok in Hmk as (_ & _ & _ & [[args ->]|[c [-> Hc]]]);
      eauto 10.
  - rewrite make_w_param_class in Hmk. simpl in Hmk. simplify_eq.
    repeat split; intros; simplify_eq/=; try done; try by right; right.
    all: match goal with
         | H : types_of _ = _ |- _ => rewrite H in Hlen; simpl in Hlen; lia
         end.
Qed.

(** C3: a parameter whose declared value type is a float type or an int type
    gets a bounded numeric input: min 0.0 and max 1e99 for NonNegativeFloat,
    min -1e99 and max 1e99 for any other float type, min 0 and max 1e99 for
    NonNegativeInt, min -1e99 and max 1e99 for any other int type. *)
Theorem numeric_inputs_bounded (p : CyclingParameter.t) (c : pyclass) :
  types_of p = [OType (TClass c)] ->
  py_float ∈ mro c \/ (py_int ∈ mro c /\ py_bool ∉ mro c) ->
  exists row,
    build_parameter_widget float_repr (AParam p) = Ok row /\
    wp_max (w_param row) = Some (VFloat float_1e99) /\
    (py_float ∈ mro c ->
       wp_class (w_param row) = BoundedFloatText /\
       wp_min (w_param row) =
         Some (if bool_decide (c = NonNegativeFloat) then VFloat float_0
               else VFloat float_neg_1e99)) /\
    (py_int ∈ mro c ->
       wp_class (w_param row) = BoundedIntText /\
       wp_min (w_param row) =
         Some (if bool_decide (c = NonNegativeInt) then VInt 0
               else VFloat float_neg_1e99)).
Proof.
  intros Hty Hnum. pose proof (mro_exclusive c) as Hex.
  unfold build_parameter_widget, pick_value_type. rewrite Hty. simpl.
  rewrite make_w_param_class.
  destruct Hnum as [Hf|[Hi Hb]].
  - rewrite bool_decide_eq_false_2 by tauto.
    rewrite bool_decide_eq_true_2 by done. simpl.
    eexists. split; [reflexivity|]. simpl. split; [done|]. split; [done|].
    intros Hi. tauto.
  - rewrite !bool_decide_eq_false_2 by tauto.
    rewrite bool_decide_eq_true_2 by done. simpl.
    eexists. split; [reflexivity|]. simpl. split; [done|]. split; [|done].
    intros Hf. tauto.
Qed.

(** C4, amended: the value control of an accepted parameter carries the
    parameter's label as its description.  Its initial value comes from v,
    the parameter's value, or the default value when the value is None, taken
    as a string when several types are declared (str among them): a Dropdown
    starts at v; a Text starts at v, or empty when v is None; a bounded
    numeric input starts at v kept within its bounds, or at 0.0 (float) and
    0 (int) when v is None. *)
Theorem value_control_bound_to_parameter (p : CyclingParameter.t)
    (row : ParameterRow) :
  build_parameter_widget float_repr (AParam p) = Ok row ->
  let w := w_param row in
  let v := if bool_decide (1 < length (types_of p))%nat
           then VStr (str float_repr (param_value_of p))
           else param_value_of p in
  wp_description w = CyclingParameter.label p /\
  wp_value w = start_value (wp_class w) (wp_min w) (wp_max w) v /\
  (v = VNone ->
   wp_value w = match wp_class w with
                | Dropdown => VNone
                | Text => VStr ""
                | BoundedFloatText => VFloat float_0
                | BoundedIntText => VInt 0
                end) /\
  (wp_class w = Dropdown \/ (wp_class w = Text /\ v <> VNone) ->
   wp_value w = v).
Proof.
  intros H w v. apply build_Ok_inv in H as (vt & pv & w0 & Hpick & Hmk & Hrow).
  assert (pv = v) as ->.
  { unfold v.
    apply pick_value_type_Ok in Hpick as [[Hty ->]|(Hlen & _ & _ & ->)].
    - by rewrite Hty.
    - by rewrite bool_decide_eq_true_2. }
  assert (w = set_disabled
                (negb (CyclingParameter.required p
                       || is_not_None (CyclingParameter.value p))) w0) as Hw
    by (unfold w; by rewrite Hrow).
  destruct (make_w_param_Ok _ _ _ _ Hmk) as (Hd & Hv & _ & _).
  rewrite Hw. simpl. split; [done|]. split; [done|]. split.
  - intros Hnone. rewrite Hnone in Hmk. clear Hv.
    destruct vt as [[c|args|args|o args|n]|x]; try discriminate.
    + rewrite make_w_param_class in Hmk.
      repeat case_bool_decide; simplify_eq; reflexivity.
    + rewrite make_w_param_Literal in Hmk. by simplify_eq.
  - intros [Hc|[Hc Hne]]; rewrite Hv, Hc; simpl; [done|].
    by destruct v.
Qed.

Lemma build_row_built (p : CyclingParameter.t) (row : ParameterRow) :
  build_parameter_widget float_repr (AParam p) = Ok row ->
  row_built row /\
  ck_value (w_check row)
    = CyclingParameter.required p || is_not_None (CyclingParameter.value p) /\
  ck_disabled (w_check row) = CyclingParameter.required p.
Proof.
  intros H. apply build_Ok_inv in H as (vt & pv & w0 & _ & _ & ->).
  by repeat split.
Qed.

Lemma assign_check_value_built (b : bool) (row : ParameterRow) :
  row_built row ->
  row_built (assign_check_value b row) /\
  ck_value (w_check (assign_check_value b row)) = b /\
  ck_disabled (w_check (assign_check_value b row)) = ck_disabled (w_check row).
Proof.
  intros [Hobs Hinv]. unfold assign_check_value.
  case_bool_decide as Hb.
  - unfold row_built, enable_invariant in *. simpl. subst b. by repeat split.
  - unfold notify. simpl. rewrite Hobs. simpl.
    unfold row_built, enable_invariant. simpl. by repeat split.
Qed.

Lemma row_step_built (e : row_event) (row : ParameterRow) :
  row_built row ->
  row_built (row_step row e) /\
  ck_disabled (w_check (row_step row e)) = ck_disabled (w_check row).
Proof.
  intros Hb. destruct e as [b|[|v]]; simpl.
  - pose proof (assign_check_value_built b row Hb). tauto.
  - destruct (ck_disabled (w_check row)) eqn:Hd; [by rewrite Hd|].
    pose proof (assign_check_value_built (negb (ck_value (w_check row)))
                  row Hb).
    split; [tauto|]. destruct H as (_ & _ & ->). done.
  - destruct (wp_disabled (w_param row)) eqn:Hdis; [done|].
    destruct (take_entry (w_param row) v) as [v'|]; [|done].
    destruct Hb as [Hobs Hinv]. split; [|done].
    unfold row_built, enable_invariant in *. simpl. done.
Qed.

Lemma row_steps_built (evs : list row_event) (row : ParameterRow) :
  row_built row ->
  row_built (foldl row_step row evs) /\
  ck_disabled (w_check (foldl row_step row evs)) = ck_disabled (w_check row).
Proof.
  revert row. induction evs as [|e evs IH]; intros row Hb; simpl; [done|].
  destruct (row_step_built e row Hb) as [Hb' Hd].
  destruct (IH _ Hb') as [Hb'' Hd']. split; [done|]. congruence.
Qed.

(** A disabled checkbox keeps its value whatever the user does. *)
Lemma user_steps_disabled_check (evs : list user_event) (row : ParameterRow) :
  ck_disabled (w_check row) = true ->
  w_check (foldl row_step row (UserEvent <$> evs)) = w_check row.
Proof.
  revert row. induction evs as [|ev evs IH]; intros row Hd; simpl; [done|].
  assert (w_check (user_step ev row) = w_check row) as Hsame.
  { destruct ev as [|v]; simpl; [by rewrite Hd|].
    destruct (wp_disabled (w_param row)); [done|].
    by destruct (take_entry (w_param row) v). }
  rewrite IH; [done|]. by rewrite Hsame.
Qed.

(** C6: the row of an accepted parameter has an enable checkbox that is
    checked at first exactly when the parameter is required or has a value
    other than None, and that is disabled exactly when the parameter is
    required; whatever the user does, the checkbox of a required parameter
    stays checked and its value control stays enabled. *)
Theorem enable_checkbox_of_row (p : CyclingParameter.t) (row : ParameterRow) :
  build_parameter_widget float_repr (AParam p) = Ok row ->
  (ck_value (w_check row) = true <->
     CyclingParameter.required p = true \/ CyclingParameter.value p <> VNone) /\
  (ck_disabled (w_check row) = true <-> CyclingParameter.required p = true) /\
  (CyclingParameter.required p = true ->
     forall evs : list user_event,
       let row' := foldl row_step row (UserEvent <$> evs) in
       ck_value (w_check row') = true /\ wp_disabled (w_param row') = false).
Proof.
  intros H. destruct (build_row_built p row H) as (Hb & Hv & Hd).
  rewrite Hv, Hd. split; [|split; [done|]].
  - rewrite orb_true_iff.
    destruct (CyclingParameter.value p); simpl; intuition congruence.
  - intros Hr evs row'.
    assert (ck_value (w_check row') = true) as Hck.
    { unfold row'. rewrite user_steps_disabled_check by congruence.
      rewrite Hv, Hr. done. }
    split; [done|].
    destruct (row_steps_built (UserEvent <$> evs) row Hb) as [[_ Hinv] _].
    fold row' in Hinv. unfold enable_invariant in Hinv.
    by rewrite Hinv, Hck.
Qed.

(** C9: in the row of an accepted parameter the enable handler is registered
    as an observer of the value of the checkbox, and "the value control is
    disabled exactly when the checkbox is unchecked" holds when the row is
    built and after every sequence of assignments to the value of the
    checkbox and of user actions. *)
Theorem enable_invariant_preserved (p : CyclingParameter.t)
    (row : ParameterRow) :
  build_parameter_widget float_repr (AParam p) = Ok row ->
  (enable_w_param_closure, "value") ∈ ck_observers (w_check row) /\
  enable_invariant row /\
  forall evs : list row_event, enable_invariant (foldl row_step row evs).
Proof.
  intros H. destruct (build_row_built p row H) as ([Hobs Hinv] & _).
  split; [rewrite Hobs; apply list_elem_of_here|]. split; [done|].
  intros evs.
  by destruct (row_steps_built evs row (conj Hobs Hinv)) as [[_ ?] _].
Qed.

(** X1: every outcome of [build_parameter_widget] on a CyclingParameter, by
    the declared types: IndexError when none is left, a row for a Literal
    and for a class deriving from bool, float, int or str,
    NotImplementedError for any other class, TypeError for a single type
    that is neither; with several types, a row when str is among them and
    NotImplementedError otherwise. *)
Lemma build_parameter_widget_outcome (p : CyclingParameter.t) :
  match types_of p with
  | [] => build_parameter_widget float_repr (AParam p) = Raise IndexError
  | [OType (TLiteral _)] =>
      exists row, build_parameter_widget float_repr (AParam p) = Ok row
  | [OType (TClass c)] =>
      if bool_decide (py_bool ∈ mro c \/ py_float ∈ mro c \/
                      py_int ∈ mro c \/ py_str ∈ mro c)
      then exists row, build_parameter_widget float_repr (AParam p) = Ok row
      else build_parameter_widget float_repr (AParam p)
           = Raise NotImplementedError
  | [_] => build_parameter_widget float_repr (AParam p) = Raise TypeError
  | _ :: _ :: _ =>
      if existsb (is_class py_str) (types_of p)
      then exists row, build_parameter_widget float_repr (AParam p) = Ok row
      else build_parameter_widget float_repr (AParam p)
           = Raise NotImplementedError
  end.
Proof.
  unfold build_parameter_widget, pick_value_type.
  destruct (types_of p) as [|t [|t' ts]] eqn:Hty; simpl; [done| |].
  - destruct t as [[c|args|args|o args|n]|v]; try reflexivity.
    + rewrite make_w_param_class.
      case_bool_decide as Hany.
      * repeat (case_bool_decide; [simpl; eauto|]). tauto.
      * rewrite !bool_decide_eq_false_2 by tauto. done.
    + rewrite make_w_param_Literal. simpl. eauto.
  - destruct (is_class py_str t || _); destruct t as [[| | | |]|];
      cbv iota; try reflexivity; simpl; eauto.
Qed.

(** C7, the failing inputs: for a CyclingParameter whose value type is the
    generic alias List[float], [issubclass] raises TypeError although the
    argument is a CyclingParameter and the type is one without a widget; and
    for a value annotation that has no arguments once NoneType is discarded,
    [types[0]] raises IndexError. *)
Theorem build_parameter_widget_leaks_TypeError :
  build_parameter_widget float_repr (AParam sample_list) = Raise TypeError /\
  build_parameter_widget float_repr
    (AParam (mk_param "x" "" "" VNone VNone false (TClass NoneType)))
    = Raise IndexError.
Proof. split; reflexivity. Qed.

End BuildProperties.

(** ** Properties of the technique widget *)

Section WidgetProperties.

Variable float_repr : spec_float -> string.
Variable ElectroChemPayloads_args : list pyclass.

Lemma set_tech_parameters_names_id (self : TechniqueParametersWidget)
    (ns : list string) :
  tech_parameters_names self = Some ns ->
  set_tech_parameters_names ns self = self.
Proof. destruct self. simpl. by intros ->. Qed.

(** The loop when every parameter is accepted. *)
Lemma loop_over_parameters_Ok (its : list (string * CyclingParameter.t)) :
  forall (acc rows : list ParameterRow) (self : TechniqueParametersWidget)
         (ns : list string),
    tech_parameters_names self = Some ns ->
    Forall2 (built_from float_repr) its rows ->
    loop_over_parameters float_repr its acc self =
      (set_tech_parameters_names (ns ++ its.*1) self, Ok (acc ++ rows)).
Proof.
  induction its as [|[k p] its IH]; intros acc rows self ns Hns Hall.
  - apply Forall2_nil_inv_l in Hall as ->. simpl.
    rewrite !app_nil_r. by rewrite set_tech_parameters_names_id.
  - apply Forall2_cons_inv_l in Hall as (r & rows' & Hr & Hall & ->).
    simpl. unfold mbind, init_bind, tech_parameters_names_append, lift.
    rewrite Hns. unfold built_from in Hr. simpl in Hr. rewrite Hr.
    rewrite (IH _ rows' _ (ns ++ [k])) by done.
    unfold set_tech_parameters_names. simpl.
    by rewrite <- !app_assoc.
Qed.

(** The loop in general: it returns the rows of all the parameters, or it
    stops at the first parameter that is not accepted, with the exception
    [build_parameter_widget] raised. *)
Lemma loop_over_parameters_inv (its : list (string * CyclingParameter.t)) :
  forall (acc : list ParameterRow) (self self' : TechniqueParametersWidget)
         (ns : list string) (r : result (list ParameterRow)),
    tech_parameters_names self = Some ns ->
    loop_over_parameters float_repr its acc self = (self', r) ->
    match r with
    | Ok rows' =>
        exists rows,
          rows' = acc ++ rows /\ Forall2 (built_from float_repr) its rows
    | Raise e =>
        exists kp,
          kp ∈ its /\ build_parameter_widget float_repr (AParam kp.2) = Raise e
    end.
Proof.
  induction its as [|[k p] its IH]; intros acc self self' ns r Hns Hloop.
  - simpl in Hloop. injection Hloop as <- <-.
    exists []. by rewrite app_nil_r.
  - simpl in Hloop.
    unfold mbind, init_bind, tech_parameters_names_append, lift in Hloop.
    rewrite Hns in Hloop.
    destruct (build_parameter_widget float_repr (AParam p)) as [w|e] eqn:Hw.
    + eapply IH in Hloop; [|reflexivity].
      destruct r as [rows'|e].
      * destruct Hloop as (rows & -> & Hall).
        exists (w :: rows). split; [by rewrite <- app_assoc|].
        by constructor.
      * destruct Hloop as (kp & Hin & Hkp).
        exists kp. split; [by apply list_elem_of_further|done].
    + injection Hloop as <- <-.
      exists (k, p). split; [apply list_elem_of_here|done].
Qed.

(** The constructor on a valid technique whose device annotation has an
    argument and whose parameters are all accepted. *)
Lemma init_Ok (technique : Technique.t) (kw : kwargs)
    (o : pyobj) (os : list pyobj) (rows : list ParameterRow) :
  isinstance (Technique.cls technique) ElectroChemPayloads_args = true ->
  get_args (OType (Technique.annotations_device technique)) = o :: os ->
  Forall2 (built_from float_repr)
          (items (Technique.parameters technique)) rows ->
  __init__ float_repr ElectroChemPayloads_args technique kw new_object =
    (initialised technique kw (o :: os) o rows, Ok tt).
Proof.
  intros Hinst Hdev Hall. unfold __init__. rewrite Hinst, Hdev.
  unfold mbind, init_bind, assign, lift, read. simpl.
  erewrite (loop_over_parameters_Ok _ [] rows) by (simpl; done).
  reflexivity.
Qed.

(** Conversely, a constructor that returns has done exactly that. *)
Lemma init_Ok_inv (technique : Technique.t) (kw : kwargs)
    (self : TechniqueParametersWidget) :
  __init__ float_repr ElectroChemPayloads_args technique kw new_object
    = (self, Ok tt) ->
  isinstance (Technique.cls technique) ElectroChemPayloads_args = true /\
  exists o os rows,
    get_args (OType (Technique.annotations_device technique)) = o :: os /\
    Forall2 (built_from float_repr)
            (items (Technique.parameters technique)) rows /\
    self = initialised technique kw (o :: os) o rows.
Proof.
  intros H. pose proof H as H'. unfold __init__ in H'.
  destruct (isinstance _ _) eqn:Hinst; cbn [negb] in H'; [|discriminate].
  split; [done|].
  destruct (get_args (OType (Technique.annotations_device technique)))
    as [|o os] eqn:Hdev; [discriminate|].
  unfold mbind, init_bind, assign, lift, read in H'. simpl in H'.
  destruct (loop_over_parameters _ _ _ _) as [self' [rows'|e]] eqn:Hloop;
    [|discriminate].
  eapply loop_over_parameters_inv in Hloop; [|reflexivity].
  destruct Hloop as (rows & -> & Hall).
  exists o, os, rows. split; [done|]. split; [done|].
  rewrite (init_Ok technique kw o os rows Hinst Hdev Hall) in H.
  by injection H as <-.
Qed.

(** C8: the constructor raises ValueError exactly when the technique is not
    an instance of one of the ElectroChemPayloads classes, and then the
    instance is left as it was: no attribute is assigned, no widget built. *)
Theorem init_ValueError_iff_invalid_technique (technique : Technique.t)
    (kw : kwargs) (self : TechniqueParametersWidget) :
  ((__init__ float_repr ElectroChemPayloads_args technique kw self).2
     = Raise ValueError <->
   isinstance (Technique.cls technique) ElectroChemPayloads_args = false) /\
  (isinstance (Technique.cls technique) ElectroChemPayloads_args = false ->
   __init__ float_repr ElectroChemPayloads_args technique kw self
     = (self, Raise ValueError)).
Proof.
  unfold __init__.
  destruct (isinstance _ _) eqn:Hinst; cbn [negb]; [|done].
  split; [|done]. split; [|done]. intros H. exfalso.
  destruct (get_args (OType (Technique.annotations_device technique)))
    as [|o os] eqn:Hdev; [discriminate|].
  unfold mbind, init_bind, assign, lift, read in H. simpl in H.
  destruct (loop_over_parameters _ _ _ _) as [self' [rows'|e]] eqn:Hloop;
    [discriminate|].
  eapply loop_over_parameters_inv in Hloop; [|reflexivity].
  destruct Hloop as (kp & _ & Hkp). simpl in H. injection H as ->.
  by apply build_never_ValueError in Hkp.
Qed.

Lemma map_as_fmap {A B : Type} (f : A -> B) (l : list A) : map f l = f <$> l.
Proof. induction l as [|a l IH]; simpl; [done|]. by rewrite IH. Qed.

Lemma tech_parameters_values_rows (self : TechniqueParametersWidget)
    (rows : list ParameterRow) :
  w_tech_parameters self = Some rows ->
  tech_parameters_values self = Ok (read_row <$> rows).
Proof.
  intros H. unfold tech_parameters_values. rewrite H. simpl.
  by rewrite map_as_fmap.
Qed.

Lemma Forall2_built_from (its : list (string * CyclingParameter.t)) :
  (forall kp, kp ∈ its ->
     exists row, build_parameter_widget float_repr (AParam kp.2) = Ok row) ->
  exists rows, Forall2 (built_from float_repr) its rows.
Proof.
  induction its as [|kp its IH]; intros H.
  - exists []. constructor.
  - destruct (H kp) as [row Hrow]; [apply list_elem_of_here|].
    destruct IH as [rows Hrows].
    { intros kp' Hin. apply H. by apply list_elem_of_further. }
    exists (row :: rows). by constructor.
Qed.

(** C5, amended: for every valid technique whose device annotation has an
    argument and whose parameters are all accepted by build_parameter_widget,
    the constructor returns; tech_parameters_names lists the names of the
    parameter schema in its iteration order, and at every position the row is
    the one built from the parameter at that position and the value read back
    is the one of that row. *)
Theorem one_row_per_parameter_in_order (technique : Technique.t) (kw : kwargs) :
  isinstance (Technique.cls technique) ElectroChemPayloads_args = true ->
  get_args (OType (Technique.annotations_device technique)) <> [] ->
  (forall kp, kp ∈ items (Technique.parameters technique) ->
     exists row, build_parameter_widget float_repr (AParam kp.2) = Ok row) ->
  exists self names rows values,
    __init__ float_repr ElectroChemPayloads_args technique kw new_object
      = (self, Ok tt) /\
    tech_parameters_names self = Some names /\
    w_tech_parameters self = Some rows /\
    tech_parameters_values self = Ok values /\
    names = (items (Technique.parameters technique)).*1 /\
    length rows = length names /\
    length values = length names /\
    forall (i : nat) (pname : string) (pobj : CyclingParameter.t),
      items (Technique.parameters technique) !! i = Some (pname, pobj) ->
      names !! i = Some pname /\
      exists row,
        rows !! i = Some row /\
        build_parameter_widget float_repr (AParam pobj) = Ok row /\
        values !! i = Some (read_row row).
Proof.
  intros Hinst Hdev Hacc.
  destruct (get_args (OType (Technique.annotations_device technique)))
    as [|o os] eqn:Hd; [done|].
  destruct (Forall2_built_from _ Hacc) as [rows Hrows].
  exists (initialised technique kw (o :: os) o rows),
    ((items (Technique.parameters technique)).*1), rows, (read_row <$> rows).
  split; [by apply init_Ok|]. split; [done|]. split; [done|].
  split; [by apply tech_parameters_values_rows|]. split; [done|].
  pose proof (Forall2_length _ _ _ Hrows) as Hlen.
  split; [by rewrite length_fmap|]. split; [by rewrite !length_fmap|].
  intros i pname pobj Hi. split; [by rewrite list_lookup_fmap, Hi|].
  destruct (Forall2_lookup_l _ _ _ _ _ Hrows Hi) as (row & Hrow & Hb).
  exists row. split; [done|]. split; [done|].
  by rewrite list_lookup_fmap, Hrow.
Qed.

Lemma fold_selected_other (l : list (string * pyvalue)) :
  forall (d : gmap string pyvalue) (k : string),
    k ∉ l.*1 -> foldl keep_selected d l !! k = d !! k.
Proof.
  induction l as [|[k0 v0] l IH]; intros d k Hk; simpl; [done|].
  simpl in Hk. apply not_elem_of_cons in Hk as [Hne Hk].
  rewrite IH by done. unfold keep_selected. simpl.
  destruct (is_not_None v0); [|done]. by rewrite lookup_insert_ne.
Qed.

Lemma fold_selected_at (l : list (string * pyvalue)) :
  NoDup (l.*1) ->
  forall (d : gmap string pyvalue) (k : string) (v : pyvalue),
    (k, v) ∈ l ->
    foldl keep_selected d l !! k = if is_not_None v then Some v else d !! k.
Proof.
  induction l as [|[k0 v0] l IH]; intros Hnd d k v Hin; simpl.
  - by apply elem_of_nil in Hin.
  - simpl in Hnd. apply NoDup_cons in Hnd as [Hk0 Hnd].
    apply elem_of_cons in Hin as [[= -> ->]|Hin].
    + rewrite fold_selected_other by done. unfold keep_selected. simpl.
      destruct (is_not_None v0); [|done]. by rewrite lookup_insert_eq.
    + rewrite (IH Hnd _ k v Hin). destruct (is_not_None v); [done|].
      unfold keep_selected. simpl.
      destruct (is_not_None v0); [|done].
      rewrite lookup_insert_ne; [done|].
      intros ->. apply Hk0. apply list_elem_of_fmap. by exists (k, v).
Qed.

Lemma fold_selected_lookup (l : list (string * pyvalue)) (k : string)
    (v : pyvalue) :
  NoDup (l.*1) ->
  foldl keep_selected ∅ l !! k = Some v <-> (k, v) ∈ l /\ v <> VNone.
Proof.
  intros Hnd. split.
  - intros Hk. destruct (decide (k ∈ l.*1)) as [Hin|Hnin].
    + apply list_elem_of_fmap in Hin as ([k' v'] & -> & Hin). simpl in Hk.
      rewrite (fold_selected_at l Hnd _ _ _ Hin) in Hk.
      destruct v'; simpl in Hk; simplify_eq; done.
    + rewrite fold_selected_other in Hk by done. by rewrite lookup_empty in Hk.
  - intros [Hin Hv]. rewrite (fold_selected_at l Hnd _ _ _ Hin).
    by destruct v.
Qed.

Lemma names_match_rows_selected (self : TechniqueParametersWidget)
    (names : list string) (rows : list ParameterRow) :
  names_match_rows self names rows ->
  selected_tech_parameters self
    = Ok (foldl keep_selected ∅ (zip names (read_row <$> rows))).
Proof.
  intros (Hn & Hr & _ & _). unfold selected_tech_parameters.
  rewrite Hn, (tech_parameters_values_rows _ _ Hr). reflexivity.
Qed.

Lemma constructed_names_match_rows (self : TechniqueParametersWidget) :
  constructed float_repr ElectroChemPayloads_args self ->
  exists names rows, names_match_rows self names rows.
Proof.
  induction 1 as [technique kw self Hinit|i ev self _ (names & rows & IH)].
  - apply init_Ok_inv in Hinit as (_ & o & os & rows & _ & Hall & ->).
    exists ((items (Technique.parameters technique)).*1), rows.
    repeat split; [apply keys_unique|].
    rewrite length_fmap. by apply Forall2_length in Hall.
  - destruct IH as (Hn & Hr & Hnd & Hlen).
    exists names, (alter (user_step ev) i rows).
    unfold names_match_rows, interact. rewrite Hr. simpl.
    repeat split; [done..|]. by rewrite length_alter.
Qed.

(** C2: for every instance the constructor has returned, at any point of its
    use, selected_tech_parameters is a dictionary that maps a name to a value
    exactly when the row at the position of that name has its checkbox checked
    and its value control holds that value and the value is not None; the name
    of a row whose checkbox is unchecked is not a key of the dictionary. *)
Theorem selected_tech_parameters_spec (self : TechniqueParametersWidget) :
  constructed float_repr ElectroChemPayloads_args self ->
  exists names rows d,
    tech_parameters_names self = Some names /\
    w_tech_parameters self = Some rows /\
    selected_tech_parameters self = Ok d /\
    (forall (pname : string) (pvalue : pyvalue),
       d !! pname = Some pvalue <->
       exists (i : nat) (row : ParameterRow),
         names !! i = Some pname /\
         rows !! i = Some row /\
         ck_value (w_check row) = true /\
         wp_value (w_param row) = pvalue /\
         pvalue <> VNone) /\
    (forall (i : nat) (pname : string) (row : ParameterRow),
       names !! i = Some pname ->
       rows !! i = Some row ->
       ck_value (w_check row) = false ->
       d !! pname = None).
Proof.
  intros Hc. destruct (constructed_names_match_rows self Hc)
    as (names & rows & Hm).
  pose proof (names_match_rows_selected self names rows Hm) as Hsel.
  destruct Hm as (Hn & Hr & Hnd & Hlen).
  exists names, rows, (foldl keep_selected ∅ (zip names (read_row <$> rows))).
  split; [done|]. split; [done|]. split; [done|].
  assert (NoDup (zip names (read_row <$> rows)).*1) as Hnd'.
  { rewrite fst_zip; [done|]. rewrite length_fmap. lia. }
  assert (forall pname pvalue,
            (pname, pvalue) ∈ zip names (read_row <$> rows) <->
            exists i row, names !! i = Some pname /\ rows !! i = Some row /\
                          read_row row = pvalue) as Hzip.
  { intros pname pvalue. rewrite list_elem_of_lookup. split.
    - intros [i Hi]. apply lookup_zip_with_Some in Hi
        as (k & v & [= <- <-] & Hk & Hv).
      rewrite list_lookup_fmap in Hv.
      destruct (rows !! i) as [row|] eqn:Hrow; [|done].
      simpl in Hv. exists i, row. by simplify_eq.
    - intros (i & row & Hk & Hrow & <-). exists i.
      apply lookup_zip_with_Some. exists pname, (read_row row).
      split; [done|]. split; [done|]. by rewrite list_lookup_fmap, Hrow. }
  split.
  - intros pname pvalue. rewrite (fold_selected_lookup _ _ _ Hnd'), Hzip.
    split.
    + intros [(i & row & Hk & Hrow & Hread) Hv]. exists i, row.
      unfold read_row in Hread.
      destruct (ck_value (w_check row)); [done|]. by subst.
    + intros (i & row & Hk & Hrow & Hck & Hval & Hv). split; [|done].
      exists i, row. unfold read_row. by rewrite Hck.
  - intros i pname row Hk Hrow Hck.
    destruct (foldl keep_selected ∅ (zip names (read_row <$> rows)) !! pname)
      as [v|] eqn:Hd; [|done].
    apply (fold_selected_lookup _ _ _ Hnd') in Hd as [Hin Hv].
    apply Hzip in Hin as (j & row' & Hk' & Hrow' & Hread).
    assert (j = i) as -> by exact (NoDup_lookup names j i pname Hnd Hk' Hk).
    simplify_eq. unfold read_row in Hv. by rewrite Hck in Hv.
Qed.

End WidgetProperties.

(** ** The theorems at the samples *)

(** The three ways out of [build_parameter_widget] with an exception that the
    source writes down. *)
Example build_parameter_widget_raises :
  build_parameter_widget sample_float_repr (AOther (VInt 3))
    = Raise TypeError /\
  build_parameter_widget sample_float_repr (AParam sample_complex)
    = Raise NotImplementedError /\
  build_parameter_widget sample_float_repr
    (AParam (mk_param "x" "" "" VNone VNone false
               (TUnion [TClass py_int; TClass py_float])))
    = Raise NotImplementedError.
Proof. repeat split; reflexivity. Qed.

(** An invalid technique: the isinstance test fails, nothing is assigned. *)
Example init_invalid_technique :
  __init__ sample_float_repr [py_str] sample_technique [] new_object
    = (new_object, Raise ValueError).
Proof. reflexivity. Qed.

Lemma build_parameter_widget_dispatch_witness :
  exists row,
    build_parameter_widget sample_float_repr (AParam sample_range) = Ok row /\
    wp_class (w_param row) = Dropdown /\
    wp_options (w_param row)
      = [OptObj (OValue (VStr "keep")); OptObj (OValue (VStr "100 pA"))].
Proof.
  eexists. split; [reflexivity|].
  pose proof (build_parameter_widget_dispatch sample_float_repr sample_range
                _ eq_refl) as (HLiteral & _).
  exact (HLiteral [VStr "keep"; VStr "100 pA"] eq_refl).
Defined.

Lemma numeric_inputs_bounded_witness :
  types_of sample_goto = [OType (TClass NonNegativeInt)] /\
  exists row,
    build_parameter_widget sample_float_repr (AParam sample_goto) = Ok row /\
    wp_max (w_param row) = Some (VFloat float_1e99).
Proof.
  split; [reflexivity|].
  destruct (numeric_inputs_bounded sample_float_repr sample_goto NonNegativeInt)
    as (row & Hrow & Hmax & _).
  - reflexivity.
  - right. split.
    + apply (bool_decide_unpack (py_int ∈ mro NonNegativeInt)). exact I.
    + apply (bool_decide_unpack (py_bool ∉ mro NonNegativeInt)). exact I.
  - exists row. split; assumption.
Defined.

Lemma value_control_bound_to_parameter_witness :
  exists row,
    build_parameter_widget sample_float_repr (AParam sample_unset) = Ok row /\
    wp_description (w_param row) = "Limit:" /\
    wp_value (w_param row) = VFloat float_0.
Proof.
  eexists. split; [reflexivity|].
  destruct (value_control_bound_to_parameter sample_float_repr sample_unset
              _ eq_refl) as (Hd & _ & Hnone & _).
  split; [exact Hd|exact (Hnone eq_refl)].
Defined.

(** For CyclingParameter[Union[float, str]] with the default value 0.0 the
    Text control starts at the string '0.0', not at the float: the initial
    value is not always the value of the parameter. *)
Lemma value_control_shows_str_of_union_value :
  ~ (forall (float_repr : spec_float -> string) (p : CyclingParameter.t)
            (row : ParameterRow),
       build_parameter_widget float_repr (AParam p) = Ok row ->
       wp_value (w_param row) = param_value_of p /\
       wp_description (w_param row) = CyclingParameter.label p).
Proof.
  intros H.
  destruct (H sample_float_repr sample_current _ eq_refl) as [Hv _].
  vm_compute in Hv. discriminate Hv.
Qed.

Lemma enable_checkbox_of_row_witness :
  exists row,
    build_parameter_widget sample_float_repr (AParam sample_time) = Ok row /\
    (ck_disabled (w_check row) = true <->
     CyclingParameter.required sample_time = true).
Proof.
  eexists. split; [reflexivity|].
  exact (proj1 (proj2 (enable_checkbox_of_row sample_float_repr sample_time
                         _ eq_refl))).
Defined.

Lemma enable_invariant_preserved_witness :
  exists row,
    build_parameter_widget sample_float_repr (AParam sample_range) = Ok row /\
    enable_invariant
      (foldl row_step row [UserEvent ClickCheckbox; AssignCheckValue false]).
Proof.
  eexists. split; [reflexivity|].
  exact (proj2 (proj2 (enable_invariant_preserved sample_float_repr
                         sample_range _ eq_refl)) _).
Defined.

(** A valid technique one of whose parameters has a type without a widget:
    the constructor raises NotImplementedError after the names were appended,
    and no row is kept. *)
Lemma init_raises_on_unsupported_parameter :
  isinstance (Technique.cls sample_bad_technique) sample_payloads = true /\
  (__init__ sample_float_repr sample_payloads sample_bad_technique []
            new_object).2 = Raise NotImplementedError /\
  w_tech_parameters
    (__init__ sample_float_repr sample_payloads sample_bad_technique []
              new_object).1 = None /\
  ~ (exists self,
       __init__ sample_float_repr sample_payloads sample_bad_technique []
                new_object = (self, Ok tt)).
Proof.
  split; [reflexivity|]. split; [reflexivity|]. split; [reflexivity|].
  intros [self H]. vm_compute in H. discriminate H.
Qed.

Lemma one_row_per_parameter_in_order_witness :
  isinstance (Technique.cls sample_technique) sample_payloads = true /\
  exists self names rows values,
    __init__ sample_float_repr sample_payloads sample_technique [] new_object
      = (self, Ok tt) /\
    tech_parameters_names self = Some names /\
    w_tech_parameters self = Some rows /\
    tech_parameters_values self = Ok values /\
    names = ["time"; "I_range"].
Proof.
  split; [reflexivity|].
  destruct (one_row_per_parameter_in_order sample_float_repr sample_payloads
              sample_technique [])
    as (self & names & rows & values & H1 & H2 & H3 & H4 & H5 & _).
  - reflexivity.
  - discriminate.
  - intros kp Hin. simpl in Hin.
    apply elem_of_cons in Hin as [->|Hin]; [eexists; reflexivity|].
    apply elem_of_cons in Hin as [->|Hin]; [eexists; reflexivity|].
    by apply elem_of_nil in Hin.
  - exists self, names, rows, values. repeat split; assumption.
Defined.

Lemma selected_tech_parameters_spec_witness :
  exists self,
    constructed sample_float_repr sample_payloads self /\
    exists names rows d,
      tech_parameters_names self = Some names /\
      w_tech_parameters self = Some rows /\
      selected_tech_parameters self = Ok d.
Proof.
  exists (interact 1 ClickCheckbox
            (__init__ sample_float_repr sample_payloads sample_technique []
                      new_object).1).
  assert (constructed sample_float_repr sample_payloads
            (interact 1 ClickCheckbox
               (__init__ sample_float_repr sample_payloads sample_technique []
                         new_object).1)) as Hc.
  { apply constructed_interact.
    apply (constructed_init _ _ sample_technique []). reflexivity. }
  split; [exact Hc|].
  destruct (selected_tech_parameters_spec sample_float_repr sample_payloads
              _ Hc) as (names & rows & d & Hn & Hr & Hd & _).
  exists names, rows, d. repeat split; assumption.
Defined.

(** ** Further properties of a row *)

Section RowProperties.

Variable float_repr : spec_float -> string.

Lemma build_initial_value (p : CyclingParameter.t) (row : ParameterRow) :
  build_parameter_widget float_repr (AParam p) = Ok row ->
  wp_value (w_param row) =
    start_value (wp_class (w_param row)) (wp_min (w_param row))
                (wp_max (w_param row)) (initial_value float_repr p).
Proof.
  intros H. apply build_Ok_inv in H as (vt & pv & w0 & Hpick & Hmk & ->).
  simpl. apply make_w_param_Ok in Hmk as (_ & -> & _).
  unfold initial_value.
  apply pick_value_type_Ok in Hpick as [[Hty ->]|(Hlen & _ & _ & ->)].
  - by rewrite Hty.
  - by rewrite bool_decide_eq_true_2.
Qed.

(** X2: a parameter whose value (or, without one, default value) is a
    string starts its value control at exactly that string, whatever the
    declared type: in the case of several declared types the conversion
    with str() leaves a string as it is. *)
Theorem string_value_shown_unchanged (p : CyclingParameter.t)
    (row : ParameterRow) (s : string) :
  build_parameter_widget float_repr (AParam p) = Ok row ->
  param_value_of p = VStr s ->
  wp_value (w_param row) = VStr s.
Proof.
  intros H Hs. rewrite (build_initial_value p row H). unfold initial_value.
  rewrite Hs. case_bool_decide; by destruct (wp_class (w_param row)).
Qed.

(** X3: the value control of a row starts disabled exactly when the
    parameter is not required and has no value (its value is None); the
    default value is then shown greyed out. *)
Theorem value_control_initially_disabled (p : CyclingParameter.t)
    (row : ParameterRow) :
  build_parameter_widget float_repr (AParam p) = Ok row ->
  (wp_disabled (w_param row) = true <->
   CyclingParameter.required p = false /\ CyclingParameter.value p = VNone).
Proof.
  intros H. destruct (build_row_built float_repr p row H) as ([_ Hinv] & Hv & _).
  unfold enable_invariant in Hinv. rewrite Hinv, Hv.
  destruct (CyclingParameter.required p), (CyclingParameter.value p); simpl;
    intuition congruence.
Qed.

(** Two clicks on the checkbox of a row bring the row back. *)
Lemma double_click_row (row : ParameterRow) :
  row_built row ->
  user_step ClickCheckbox (user_step ClickCheckbox row) = row.
Proof.
  intros [Hobs Hinv]. unfold enable_invariant in Hinv.
  destruct row as [[v d ds st ly obs] [cl de pl op mn mx vl sy dis] u].
  simpl in *. subst obs dis.
  destruct d; simpl; [done|].
  unfold assign_check_value, notify. simpl.
  destruct v; simpl; reflexivity.
Qed.

(** X4: on a row as built, or as left by any events, unchecking and checking
    again (two clicks on the checkbox) loses nothing: the row is as before,
    the entered value included. *)
Theorem double_click_restores_row (p : CyclingParameter.t)
    (row : ParameterRow) (evs : list row_event) :
  build_parameter_widget float_repr (AParam p) = Ok row ->
  let row' := foldl row_step row evs in
  user_step ClickCheckbox (user_step ClickCheckbox row') = row'.
Proof.
  intros H row'. apply double_click_row.
  destruct (build_row_built float_repr p row H) as (Hb & _).
  by destruct (row_steps_built evs row Hb) as [? _].
Qed.

(** X5: a value entered in a row whose checkbox is unchecked is not taken:
    on a row as built, or as left by any events, the event leaves the row as
    it is. *)
Theorem unchecked_row_ignores_input (p : CyclingParameter.t)
    (row : ParameterRow) (evs : list row_event) (v : pyvalue) :
  build_parameter_widget float_repr (AParam p) = Ok row ->
  let row' := foldl row_step row evs in
  ck_value (w_check row') = false ->
  user_step (EnterValue v) row' = row'.
Proof.
  intros H row' Hck.
  destruct (build_row_built float_repr p row H) as (Hb & _).
  destruct (row_steps_built evs row Hb) as [[_ Hinv] _].
  fold row' in Hinv. unfold enable_invariant in Hinv. simpl.
  by rewrite Hinv, Hck.
Qed.

End RowProperties.

(** ** Further properties of the constructor *)

Section ConstructorProperties.

Variable float_repr : spec_float -> string.
Variable ElectroChemPayloads_args : list pyclass.

Lemma build_Raise_inv (arg : pyarg) (e : exn) :
  build_parameter_widget float_repr arg = Raise e ->
  e = TypeError \/ e = NotImplementedError \/ e = IndexError.
Proof.
  unfold build_parameter_widget. destruct arg as [p|v]; [|intros [= <-]; auto].
  destruct (pick_value_type _ _ _) as [[vt pv]|e'] eqn:Hpick; simpl.
  - destruct (make_w_param p vt pv) as [w|e'] eqn:Hmk; simpl; [discriminate|].
    intros [= <-]. apply make_w_param_Raise in Hmk. tauto.
  - intros [= <-]. unfold pick_value_type in Hpick.
    repeat case_match; simplify_eq; auto.
Qed.

(** The loop when a parameter is rejected after accepted ones: the name of
    the rejected parameter is already appended. *)
Lemma loop_over_parameters_Raise (its1 : list (string * CyclingParameter.t)) :
  forall (its2 : list (string * CyclingParameter.t)) (k : string)
         (p : CyclingParameter.t) (e : exn)
         (acc rows1 : list ParameterRow) (self : TechniqueParametersWidget)
         (ns : list string),
    tech_parameters_names self = Some ns ->
    Forall2 (built_from float_repr) its1 rows1 ->
    build_parameter_widget float_repr (AParam p) = Raise e ->
    loop_over_parameters float_repr (its1 ++ (k, p) :: its2) acc self =
      (set_tech_parameters_names (ns ++ its1.*1 ++ [k]) self, Raise e).
Proof.
  induction its1 as [|[k1 p1] its1 IH];
    intros its2 k p e acc rows1 self ns Hns Hall He.
  - simpl. unfold mbind, init_bind, tech_parameters_names_append, lift.
    by rewrite Hns, He.
  - apply Forall2_cons_inv_l in Hall as (r & rows' & Hr & Hall & ->).
    simpl. unfold mbind, init_bind, tech_parameters_names_append, lift.
    rewrite Hns. unfold built_from in Hr. simpl in Hr. rewrite Hr.
    rewrite (IH its2 k p e _ rows' _ (ns ++ [k1])) by done.
    unfold set_tech_parameters_names. simpl.
    by rewrite <- !app_assoc.
Qed.

(** X6: the constructor returns exactly when the technique is an instance
    of one of the payload classes, its device annotation has at least one
    argument, and build_parameter_widget accepts every parameter. *)
Theorem init_returns_iff (technique : Technique.t) (kw : kwargs) :
  (exists self,
     __init__ float_repr ElectroChemPayloads_args technique kw new_object
       = (self, Ok tt)) <->
  isinstance (Technique.cls technique) ElectroChemPayloads_args = true /\
  get_args (OType (Technique.annotations_device technique)) <> [] /\
  (forall kp, kp ∈ items (Technique.parameters technique) ->
     exists row, build_parameter_widget float_repr (AParam kp.2) = Ok row).
Proof.
  split.
  - intros [self H].
    apply init_Ok_inv in H as (Hinst & o & os & rows & Hdev & Hall & _).
    split; [done|]. split; [by rewrite Hdev|].
    intros kp Hin. apply list_elem_of_lookup in Hin as [i Hi].
    destruct (Forall2_lookup_l _ _ _ _ _ Hall Hi) as (row & _ & Hrow).
    by exists row.
  - intros (Hinst & Hdev & Hacc).
    destruct (get_args (OType (Technique.annotations_device technique)))
      as [|o os] eqn:Hd; [done|].
    destruct (Forall2_built_from float_repr _ Hacc) as [rows Hrows].
    eexists. by apply init_Ok.
Qed.

(** X7: when the parameters before some parameter are accepted and that
    parameter is rejected, the constructor of a valid technique raises the
    exception of that parameter; tech_parameters_names then holds the names
    up to and including the rejected one, and neither the rows nor the
    children of the widget are assigned. *)
Theorem init_stops_at_first_rejected (technique : Technique.t) (kw : kwargs)
    (its1 its2 : list (string * CyclingParameter.t)) (k : string)
    (p : CyclingParameter.t) (e : exn) :
  isinstance (Technique.cls technique) ElectroChemPayloads_args = true ->
  get_args (OType (Technique.annotations_device technique)) <> [] ->
  items (Technique.parameters technique) = its1 ++ (k, p) :: its2 ->
  (forall kp, kp ∈ its1 ->
     exists row, build_parameter_widget float_repr (AParam kp.2) = Ok row) ->
  build_parameter_widget float_repr (AParam p) = Raise e ->
  exists self,
    __init__ float_repr ElectroChemPayloads_args technique kw new_object
      = (self, Raise e) /\
    tech_parameters_names self = Some (its1.*1 ++ [k]) /\
    w_tech_parameters self = None /\
    children self = None.
Proof.
  intros Hinst Hdev Hits Hacc He.
  destruct (get_args (OType (Technique.annotations_device technique)))
    as [|o os] eqn:Hd; [done|].
  destruct (Forall2_built_from float_repr _ Hacc) as [rows1 Hrows].
  unfold __init__. rewrite Hinst, Hd, Hits.
  unfold mbind, init_bind, assign, lift, read. simpl.
  erewrite (loop_over_parameters_Raise its1 its2 k p e [] rows1)
    by (simpl; done).
  eexists. split; [reflexivity|]. by simpl.
Qed.

(** X8: for a valid technique whose device annotation has no argument the
    constructor raises IndexError at [device_options[0]], before it looks at
    any parameter: the name field is assigned, the device dropdown and the
    list of names are not. *)
Theorem init_IndexError_without_device (technique : Technique.t) (kw : kwargs) :
  isinstance (Technique.cls technique) ElectroChemPayloads_args = true ->
  get_args (OType (Technique.annotations_device technique)) = [] ->
  exists self,
    __init__ float_repr ElectroChemPayloads_args technique kw new_object
      = (self, Raise IndexError) /\
    w_name self = Some (ipw_Text "Step label:" "Enter a custom name"
                                 (VStr (Technique.name technique)) []) /\
    w_device self = None /\
    tech_parameters_names self = None.
Proof.
  intros Hinst Hdev. unfold __init__. rewrite Hinst, Hdev.
  unfold mbind, init_bind, assign, lift, read. simpl.
  eexists. split; [reflexivity|]. by simpl.
Qed.

(** X9: whatever instance it starts from, the constructor raises nothing but
    ValueError, IndexError, TypeError and NotImplementedError; it never
    raises AttributeError, as it assigns every attribute before it reads
    it. *)
Theorem init_exceptions (technique : Technique.t) (kw : kwargs)
    (self : TechniqueParametersWidget) (e : exn) :
  (__init__ float_repr ElectroChemPayloads_args technique kw self).2
    = Raise e ->
  e = ValueError \/ e = IndexError \/ e = TypeError \/
  e = NotImplementedError.
Proof.
  unfold __init__.
  destruct (isinstance _ _) eqn:Hinst; cbn [negb]; [|intros [= <-]; auto].
  destruct (get_args (OType (Technique.annotations_device technique)))
    as [|o os] eqn:Hdev; [intros [= <-]; auto|].
  unfold mbind, init_bind, assign, lift, read. simpl.
  destruct (loop_over_parameters _ _ _ _) as [self' [rows'|e']] eqn:Hloop;
    [discriminate|].
  eapply loop_over_parameters_inv in Hloop; [|reflexivity].
  destruct Hloop as (kp & _ & Hkp). simpl. intros [= <-].
  apply build_Raise_inv in Hkp. tauto.
Qed.

End ConstructorProperties.

(** ** Further properties of the widget in use *)

Section SessionProperties.

Variable float_repr : spec_float -> string.
Variable ElectroChemPayloads_args : list pyclass.

Lemma interactions_constructed (evs : list (nat * user_event)) :
  forall self,
    constructed float_repr ElectroChemPayloads_args self ->
    constructed float_repr ElectroChemPayloads_args (interactions evs self).
Proof.
  induction evs as [|[i ev] evs IH]; intros self Hc; simpl; [done|].
  apply IH. by apply constructed_interact.
Qed.

Lemma constructed_rows_built (self : TechniqueParametersWidget)
    (rows : list ParameterRow) :
  constructed float_repr ElectroChemPayloads_args self ->
  w_tech_parameters self = Some rows ->
  Forall row_built rows.
Proof.
  intros Hc. revert rows.
  induction Hc as [technique kw self Hinit|i ev self _ IH]; intros rows Hr.
  - apply init_Ok_inv in Hinit as (_ & o & os & rows0 & _ & Hall & ->).
    simpl in Hr. injection Hr as <-.
    apply Forall_lookup. intros i row Hi.
    destruct (Forall2_lookup_r _ _ _ _ _ Hall Hi) as ([k p] & _ & Hb).
    by destruct (build_row_built float_repr p row Hb) as [? _].
  - unfold interact in Hr.
    destruct (w_tech_parameters self) as [rows0|] eqn:Hr0; [|by rewrite Hr0 in Hr].
    simpl in Hr. injection Hr as <-.
    apply Forall_alter; [by apply IH|].
    intros row _ Hb.
    by destruct (row_step_built (UserEvent ev) row Hb) as [? _].
Qed.

Lemma user_step_disabled_check (ev : user_event) (row : ParameterRow) :
  ck_disabled (w_check row) = true ->
  w_check (user_step ev row) = w_check row.
Proof.
  intros Hd. destruct ev as [|v]; simpl; [by rewrite Hd|].
  destruct (wp_disabled (w_param row)); [done|].
  by destruct (take_entry (w_param row) v).
Qed.

Lemma built_row_of_parameter (kp : string * CyclingParameter.t)
    (row : ParameterRow) :
  built_from float_repr kp row -> row_of_parameter kp row.
Proof.
  intros H. destruct (build_row_built float_repr kp.2 row H) as (Hb & Hv & Hd).
  split; [done|]. split; [done|]. intros Hr. by rewrite Hv, Hr.
Qed.

Lemma user_step_row_of_parameter (kp : string * CyclingParameter.t)
    (ev : user_event) (row : ParameterRow) :
  row_of_parameter kp row -> row_of_parameter kp (user_step ev row).
Proof.
  intros (Hb & Hd & Hv).
  destruct (row_step_built (UserEvent ev) row Hb) as [Hb' Hd'].
  simpl in Hb', Hd'. split; [done|]. split; [congruence|].
  intros Hr. rewrite user_step_disabled_check by congruence. by apply Hv.
Qed.

(** A session changes nothing but the rows, and every row keeps what it has
    of its parameter. *)
Lemma interactions_initialised (technique : Technique.t) (kw : kwargs)
    (os : list pyobj) (o : pyobj) (evs : list (nat * user_event)) :
  forall rows,
    Forall2 row_of_parameter (items (Technique.parameters technique)) rows ->
    exists rows',
      interactions evs (initialised technique kw os o rows)
        = initialised technique kw os o rows' /\
      Forall2 row_of_parameter (items (Technique.parameters technique)) rows'.
Proof.
  induction evs as [|[i ev] evs IH]; intros rows Hrows; simpl.
  - by exists rows.
  - apply (IH (alter (user_step ev) i rows)).
    apply Forall2_alter_r; [done|].
    intros kp row _ _. apply user_step_row_of_parameter.
Qed.

Lemma init_then_interactions (technique : Technique.t) (kw : kwargs)
    (self : TechniqueParametersWidget) (evs : list (nat * user_event)) :
  __init__ float_repr ElectroChemPayloads_args technique kw new_object
    = (self, Ok tt) ->
  exists o os rows,
    interactions evs self = initialised technique kw (o :: os) o rows /\
    Forall2 row_of_parameter (items (Technique.parameters technique)) rows.
Proof.
  intros H. apply init_Ok_inv in H as (_ & o & os & rows0 & _ & Hall & ->).
  destruct (interactions_initialised technique kw (o :: os) o evs rows0)
    as (rows & Heq & Hrows).
  { eapply Forall2_impl; [exact Hall|]. apply built_row_of_parameter. }
  by exists o, os, rows.
Qed.

(** X10: tech_name reads the step label, which starts as the name of the
    technique; the user's actions on the rows never change it. *)
Theorem tech_name_is_technique_name (technique : Technique.t) (kw : kwargs)
    (self : TechniqueParametersWidget) (evs : list (nat * user_event)) :
  __init__ float_repr ElectroChemPayloads_args technique kw new_object
    = (self, Ok tt) ->
  tech_name (interactions evs self) = Ok (VStr (Technique.name technique)).
Proof.
  intros H.
  destruct (init_then_interactions technique kw self evs H)
    as (o & os & rows & -> & _).
  reflexivity.
Qed.

(** The dictionary of an instance whose names and rows match. *)
Lemma selected_lookup_iff (self : TechniqueParametersWidget)
    (names : list string) (rows : list ParameterRow) :
  names_match_rows self names rows ->
  exists d,
    selected_tech_parameters self = Ok d /\
    forall (pname : string) (pvalue : pyvalue),
      d !! pname = Some pvalue <->
      exists (i : nat) (row : ParameterRow),
        names !! i = Some pname /\ rows !! i = Some row /\
        read_row row = pvalue /\ pvalue <> VNone.
Proof.
  intros Hm. pose proof (names_match_rows_selected self names rows Hm) as Hsel.
  destruct Hm as (Hn & Hr & Hnd & Hlen).
  exists (foldl keep_selected ∅ (zip names (read_row <$> rows))).
  split; [done|]. intros pname pvalue.
  rewrite fold_selected_lookup
    by (rewrite fst_zip; [done|]; rewrite length_fmap; lia).
  rewrite list_elem_of_lookup. split.
  - intros [[i Hi] Hv]. apply lookup_zip_with_Some in Hi
      as (k & v & [= <- <-] & Hk & Hval).
    rewrite list_lookup_fmap in Hval.
    destruct (rows !! i) as [row|] eqn:Hrow; [|done].
    simpl in Hval. exists i, row. by simplify_eq.
  - intros (i & row & Hk & Hrow & <- & Hv). split; [|done]. exists i.
    apply lookup_zip_with_Some. exists pname, (read_row row).
    split; [done|]. split; [done|]. by rewrite list_lookup_fmap, Hrow.
Qed.

Lemma names_match_rows_alter (self : TechniqueParametersWidget)
    (names : list string) (rows : list ParameterRow)
    (f : ParameterRow -> ParameterRow) (i : nat) :
  names_match_rows self names rows ->
  names_match_rows (set_w_tech_parameters (alter f i rows) self)
                   names (alter f i rows).
Proof.
  intros (Hn & Hr & Hnd & Hlen). unfold names_match_rows. simpl.
  by rewrite length_alter.
Qed.

(** The entry of the dictionary for the name at a position. *)
Lemma selected_at (self : TechniqueParametersWidget)
    (names : list string) (rows : list ParameterRow)
    (i : nat) (k : string) (row : ParameterRow) (d : gmap string pyvalue) :
  names_match_rows self names rows ->
  names !! i = Some k -> rows !! i = Some row ->
  selected_tech_parameters self = Ok d ->
  d !! k = if is_not_None (read_row row) then Some (read_row row) else None.
Proof.
  intros Hm Hk Hrow Hd.
  destruct (selected_lookup_iff self names rows Hm) as (d' & Hd' & Hiff).
  rewrite Hd in Hd'. injection Hd' as <-.
  destruct Hm as (_ & _ & Hnd & _).
  destruct (read_row row) eqn:Hread; simpl;
    [|apply Hiff; exists i, row; by rewrite Hread ..].
  destruct (d !! k) as [v|] eqn:Hdk; [|done].
  apply Hiff in Hdk as (j & row' & Hk' & Hrow' & Hr' & Hv).
  assert (j = i) as -> by exact (NoDup_lookup names j i k Hnd Hk' Hk).
  simplify_eq.
Qed.

(** Changing the row at one position leaves the entries of the other names
    as they are. *)
Lemma selected_frame (self : TechniqueParametersWidget)
    (names : list string) (rows : list ParameterRow)
    (f : ParameterRow -> ParameterRow) (i : nat) (k : string)
    (d0 d : gmap string pyvalue) :
  names_match_rows self names rows ->
  names !! i = Some k ->
  selected_tech_parameters self = Ok d0 ->
  selected_tech_parameters (set_w_tech_parameters (alter f i rows) self)
    = Ok d ->
  forall k', k' <> k -> d !! k' = d0 !! k'.
Proof.
  intros Hm Hk Hd0 Hd k' Hne.
  pose proof (names_match_rows_alter self names rows f i Hm) as Hm'.
  destruct (selected_lookup_iff _ _ _ Hm) as (d0' & Hd0' & Hiff0).
  destruct (selected_lookup_iff _ _ _ Hm') as (d' & Hd' & Hiff).
  rewrite Hd0 in Hd0'. injection Hd0' as <-.
  rewrite Hd in Hd'. injection Hd' as <-.
  apply option_eq. intros v. rewrite Hiff, Hiff0.
  split; intros (j & row & Hj & Hrow & Hread & Hv); exists j, row;
    (split; [done|]); (split; [|done]);
    assert (i <> j) by (intros ->; congruence).
  - by rewrite list_lookup_alter_ne in Hrow.
  - by rewrite list_lookup_alter_ne.
Qed.

Lemma interact_rows (self : TechniqueParametersWidget)
    (rows : list ParameterRow) (i : nat) (ev : user_event) :
  w_tech_parameters self = Some rows ->
  interact i ev self
    = set_w_tech_parameters (alter (user_step ev) i rows) self.
Proof. intros H. unfold interact. by rewrite H. Qed.

Lemma constructed_selected (self : TechniqueParametersWidget) :
  constructed float_repr ElectroChemPayloads_args self ->
  exists names rows d,
    names_match_rows self names rows /\
    Forall row_built rows /\
    selected_tech_parameters self = Ok d.
Proof.
  intros Hc.
  destruct (constructed_names_match_rows float_repr ElectroChemPayloads_args
              self Hc) as (names & rows & Hm).
  destruct (selected_lookup_iff self names rows Hm) as (d & Hd & _).
  exists names, rows, d. split; [done|]. split; [|done].
  destruct Hm as (_ & Hr & _). by eapply constructed_rows_built.
Qed.

(** X11: "If a parameter is disabled, its value will be None": in every
    instance the constructor returned, at any point of its use,
    tech_parameters_values has one entry per row, None for a row whose value
    control is disabled and the value of the control for any other row. *)
Theorem disabled_parameter_reads_None (self : TechniqueParametersWidget) :
  constructed float_repr ElectroChemPayloads_args self ->
  exists rows values,
    w_tech_parameters self = Some rows /\
    tech_parameters_values self = Ok values /\
    length values = length rows /\
    forall (i : nat) (row : ParameterRow),
      rows !! i = Some row ->
      values !! i = Some (if wp_disabled (w_param row) then VNone
                          else wp_value (w_param row)).
Proof.
  intros Hc. destruct (constructed_selected self Hc)
    as (names & rows & d & (_ & Hr & _) & Hb & _).
  exists rows, (read_row <$> rows). split; [done|].
  split; [by apply tech_parameters_values_rows|].
  split; [by rewrite length_fmap|].
  intros i row Hi. rewrite list_lookup_fmap, Hi. simpl.
  destruct (Forall_lookup_1 _ _ _ _ Hb Hi) as [_ Hinv].
  unfold enable_invariant in Hinv. rewrite Hinv. unfold read_row.
  by destruct (ck_value (w_check row)).
Qed.

(** X12: a required parameter cannot be left out: after the constructor
    has returned and whatever the user then does, the row of a required
    parameter is checked and its value control enabled, and
    selected_tech_parameters has the parameter's name with the value of the
    control, provided that value is not None. *)
Theorem required_parameter_always_selected (technique : Technique.t)
    (kw : kwargs) (self : TechniqueParametersWidget)
    (i : nat) (pname : string) (pobj : CyclingParameter.t)
    (evs : list (nat * user_event)) :
  __init__ float_repr ElectroChemPayloads_args technique kw new_object
    = (self, Ok tt) ->
  items (Technique.parameters technique) !! i = Some (pname, pobj) ->
  CyclingParameter.required pobj = true ->
  exists rows row d,
    w_tech_parameters (interactions evs self) = Some rows /\
    rows !! i = Some row /\
    ck_value (w_check row) = true /\
    wp_disabled (w_param row) = false /\
    selected_tech_parameters (interactions evs self) = Ok d /\
    (wp_value (w_param row) <> VNone ->
     d !! pname = Some (wp_value (w_param row))).
Proof.
  intros Hinit Hi Hreq.
  destruct (init_then_interactions technique kw self evs Hinit)
    as (o & os & rows & -> & Hrows).
  destruct (Forall2_lookup_l _ _ _ _ _ Hrows Hi)
    as (row & Hrow & [_ Hinv] & _ & Hck).
  specialize (Hck Hreq). unfold enable_invariant in Hinv.
  assert (names_match_rows (initialised technique kw (o :: os) o rows)
            ((items (Technique.parameters technique)).*1) rows) as Hm.
  { repeat split; [apply keys_unique|].
    rewrite length_fmap. by apply Forall2_length in Hrows. }
  destruct (selected_lookup_iff _ _ _ Hm) as (d & Hd & Hiff).
  exists rows, row, d. split; [done|]. split; [done|]. split; [done|].
  split; [by rewrite Hinv, Hck|]. split; [done|].
  intros Hv. apply Hiff. exists i, row.
  split; [by rewrite list_lookup_fmap, Hi|]. split; [done|].
  unfold read_row. by rewrite Hck.
Qed.


Lemma assign_check_value_value (b : bool) (row : ParameterRow) :
  row_built row ->
  wp_value (w_param (assign_check_value b row)) = wp_value (w_param row).
Proof.
  intros [Hobs _]. unfold assign_check_value.
  case_bool_decide; [done|]. unfold notify. simpl. by rewrite Hobs.
Qed.

(** X14: a click on a checkbox that is not disabled switches the parameter:
    if the row was checked, its name is no longer in
    selected_tech_parameters; if it was unchecked, its name is there with the
    value of the control, provided that value is not None.  The entries for
    the other names are as before. *)
Theorem click_switches_parameter (self : TechniqueParametersWidget)
    (names : list string) (rows : list ParameterRow)
    (i : nat) (pname : string) (row : ParameterRow) :
  constructed float_repr ElectroChemPayloads_args self ->
  tech_parameters_names self = Some names ->
  w_tech_parameters self = Some rows ->
  names !! i = Some pname ->
  rows !! i = Some row ->
  ck_disabled (w_check row) = false ->
  exists d0 d,
    selected_tech_parameters self = Ok d0 /\
    selected_tech_parameters (interact i ClickCheckbox self) = Ok d /\
    (ck_value (w_check row) = true -> d !! pname = None) /\
    (ck_value (w_check row) = false -> wp_value (w_param row) <> VNone ->
     d !! pname = Some (wp_value (w_param row))) /\
    forall k, k <> pname -> d !! k = d0 !! k.
Proof.
  intros Hc Hn Hr Hk Hrow Hdis.
  destruct (constructed_selected self Hc)
    as (names' & rows' & d0 & Hm & Hb & Hd0).
  pose proof Hm as (Hn' & Hr' & _). simplify_eq.
  rewrite (interact_rows self rows i _ Hr).
  pose proof (names_match_rows_alter self names rows
                (user_step ClickCheckbox) i Hm) as Hm'.
  destruct (selected_lookup_iff _ _ _ Hm') as (d & Hd & _).
  pose proof (Forall_lookup_1 _ _ _ _ Hb Hrow) as Hbuilt.
  assert (d !! pname =
          if is_not_None (read_row (user_step ClickCheckbox row))
          then Some (read_row (user_step ClickCheckbox row)) else None) as Hat.
  { assert (alter (user_step ClickCheckbox) i rows !! i
            = Some (user_step ClickCheckbox row)) as Hrow'
      by (by rewrite list_lookup_alter_eq, Hrow).
    exact (selected_at _ _ _ i pname _ d Hm' Hk Hrow' Hd). }
  simpl in Hat. rewrite Hdis in Hat. unfold read_row in Hat.
  destruct (assign_check_value_built (negb (ck_value (w_check row))) row
              Hbuilt) as (_ & Hv' & _).
  rewrite Hv', (assign_check_value_value _ row Hbuilt) in Hat.
  exists d0, d. split; [done|]. split; [done|].
  split; [|split].
  - intros Hck. by rewrite Hck in Hat.
  - intros Hck Hv. rewrite Hck in Hat. simpl in Hat.
    by destruct (wp_value (w_param row)).
  - by apply (selected_frame self names rows (user_step ClickCheckbox)
                i pname d0 d).
Qed.

(** X15: unchecking a parameter and checking it again (two clicks on its
    checkbox) leaves the whole widget as it was, the entered values
    included. *)
Theorem double_click_restores_widget (self : TechniqueParametersWidget)
    (i : nat) :
  constructed float_repr ElectroChemPayloads_args self ->
  interact i ClickCheckbox (interact i ClickCheckbox self) = self.
Proof.
  intros Hc.
  destruct (constructed_selected self Hc)
    as (names & rows & d0 & (_ & Hr & _) & Hb & _).
  rewrite (interact_rows self rows i _ Hr).
  rewrite (interact_rows
             (set_w_tech_parameters (alter (user_step ClickCheckbox) i rows)
                                    self)
             (alter (user_step ClickCheckbox) i rows) i _ eq_refl).
  assert (alter (user_step ClickCheckbox) i
            (alter (user_step ClickCheckbox) i rows) = rows) as ->.
  { apply list_eq. intros j. destruct (decide (i = j)) as [<-|Hne].
    - rewrite !list_lookup_alter_eq.
      destruct (rows !! i) as [row|] eqn:Hrow; [|done].
      change (Some (user_step ClickCheckbox (user_step ClickCheckbox row))
              = Some row).
      by rewrite (double_click_row row (Forall_lookup_1 _ _ _ _ Hb Hrow)).
    - by rewrite !list_lookup_alter_ne. }
  destruct self. simpl in *. by subst.
Qed.

(** X16: right after the constructor has returned, selected_tech_parameters
    has exactly the parameters that are required or have a value, each with
    the value the control of its row starts at, unless that is None.  So a
    required float parameter without a value and without a default value is
    there with 0.0. *)
Theorem selected_after_construction (technique : Technique.t) (kw : kwargs)
    (self : TechniqueParametersWidget) :
  __init__ float_repr ElectroChemPayloads_args technique kw new_object
    = (self, Ok tt) ->
  exists d,
    selected_tech_parameters self = Ok d /\
    forall (pname : string) (pvalue : pyvalue),
      d !! pname = Some pvalue <->
      exists pobj row,
        (pname, pobj) ∈ items (Technique.parameters technique) /\
        build_parameter_widget float_repr (AParam pobj) = Ok row /\
        (CyclingParameter.required pobj = true \/
         CyclingParameter.value pobj <> VNone) /\
        wp_value (w_param row) = pvalue /\
        pvalue <> VNone.
Proof.
  intros H. apply init_Ok_inv in H as (_ & o & os & rows & _ & Hall & ->).
  assert (names_match_rows (initialised technique kw (o :: os) o rows)
            ((items (Technique.parameters technique)).*1) rows) as Hm.
  { repeat split; [apply keys_unique|].
    rewrite length_fmap. by apply Forall2_length in Hall. }
  destruct (selected_lookup_iff _ _ _ Hm) as (d & Hd & Hiff).
  exists d. split; [done|]. intros pname pvalue. rewrite Hiff.
  assert (forall (pobj : CyclingParameter.t) (row : ParameterRow),
            build_parameter_widget float_repr (AParam pobj) = Ok row ->
            read_row row = pvalue /\ pvalue <> VNone <->
            (CyclingParameter.required pobj = true \/
             CyclingParameter.value pobj <> VNone) /\
            wp_value (w_param row) = pvalue /\ pvalue <> VNone)
    as Hrow.
  { intros pobj row Hb.
    destruct (build_row_built float_repr pobj row Hb) as (_ & Hv & _).
    unfold read_row. rewrite Hv.
    destruct (CyclingParameter.required pobj),
      (CyclingParameter.value pobj); simpl; intuition congruence. }
  split.
  - intros (i & row & Hk & Hr & Hread & Hv).
    rewrite list_lookup_fmap in Hk.
    destruct (items (Technique.parameters technique) !! i)
      as [[k pobj]|] eqn:Hi; [|done].
    simpl in Hk. injection Hk as ->.
    destruct (Forall2_lookup_l _ _ _ _ _ Hall Hi) as (row' & Hr' & Hb).
    simplify_eq. exists pobj, row.
    split; [by eapply list_elem_of_lookup_2|]. split; [done|].
    by apply (Hrow pobj row).
  - intros (pobj & row0 & Hin & Hb0 & Hsel).
    apply list_elem_of_lookup in Hin as [i Hi].
    destruct (Forall2_lookup_l _ _ _ _ _ Hall Hi) as (row & Hr & Hb).
    unfold built_from in Hb. simpl in Hb. rewrite Hb0 in Hb.
    injection Hb as ->.
    exists i, row. split; [by rewrite list_lookup_fmap, Hi|].
    split; [done|]. by apply (Hrow pobj row).
Qed.

End SessionProperties.

(** ** The further properties at the samples *)

Lemma sample_widget_constructed :
  constructed sample_float_repr sample_payloads sample_widget.
Proof.
  apply (constructed_init sample_float_repr sample_payloads sample_technique []).
  reflexivity.
Defined.

Lemma string_value_shown_unchanged_witness :
  param_value_of sample_expression = VStr "0.1 * C" /\
  exists row,
    build_parameter_widget sample_float_repr (AParam sample_expression)
      = Ok row /\
    wp_value (w_param row) = VStr "0.1 * C".
Proof.
  split; [reflexivity|]. eexists. split; [reflexivity|].
  exact (string_value_shown_unchanged sample_float_repr sample_expression
           _ "0.1 * C" eq_refl eq_refl).
Defined.

Lemma value_control_initially_disabled_witness :
  exists row,
    build_parameter_widget sample_float_repr (AParam sample_range) = Ok row /\
    (wp_disabled (w_param row) = true <->
     CyclingParameter.required sample_range = false /\
     CyclingParameter.value sample_range = VNone).
Proof.
  eexists. split; [reflexivity|].
  exact (value_control_initially_disabled sample_float_repr sample_range
           _ eq_refl).
Defined.

Lemma double_click_restores_row_witness :
  exists row,
    build_parameter_widget sample_float_repr (AParam sample_range) = Ok row /\
    let row' := foldl row_step row [UserEvent ClickCheckbox;
                                    UserEvent (EnterValue (VStr "100 pA"))] in
    user_step ClickCheckbox (user_step ClickCheckbox row') = row'.
Proof.
  eexists. split; [reflexivity|].
  exact (double_click_restores_row sample_float_repr sample_range _ _ eq_refl).
Defined.

Lemma unchecked_row_ignores_input_witness :
  exists row,
    build_parameter_widget sample_float_repr (AParam sample_range) = Ok row /\
    ck_value (w_check row) = false /\
    user_step (EnterValue (VStr "100 pA")) row = row.
Proof.
  eexists. split; [reflexivity|]. split; [reflexivity|].
  exact (unchecked_row_ignores_input sample_float_repr sample_range _ []
           (VStr "100 pA") eq_refl eq_refl).
Defined.

Lemma init_stops_at_first_rejected_witness :
  isinstance (Technique.cls sample_bad_technique) sample_payloads = true /\
  exists self,
    __init__ sample_float_repr sample_payloads sample_bad_technique []
             new_object = (self, Raise NotImplementedError) /\
    tech_parameters_names self = Some ["time"; "impedance"] /\
    w_tech_parameters self = None /\
    children self = None.
Proof.
  split; [reflexivity|].
  apply (init_stops_at_first_rejected sample_float_repr sample_payloads
           sample_bad_technique [] [("time", sample_time)] []
           "impedance" sample_complex NotImplementedError).
  - reflexivity.
  - discriminate.
  - reflexivity.
  - intros kp Hin.
    apply elem_of_cons in Hin as [->|Hin]; [eexists; reflexivity|].
    by apply elem_of_nil in Hin.
  - reflexivity.
Defined.

Lemma init_IndexError_without_device_witness :
  isinstance (Technique.cls sample_no_device) sample_payloads = true /\
  get_args (OType (Technique.annotations_device sample_no_device)) = [] /\
  exists self,
    __init__ sample_float_repr sample_payloads sample_no_device []
             new_object = (self, Raise IndexError) /\
    w_device self = None.
Proof.
  split; [reflexivity|]. split; [reflexivity|].
  destruct (init_IndexError_without_device sample_float_repr sample_payloads
              sample_no_device [] eq_refl eq_refl)
    as (self & Hinit & _ & Hdev & _).
  exists self. split; assumption.
Defined.

Lemma init_exceptions_witness :
  (__init__ sample_float_repr sample_payloads sample_bad_technique []
            new_object).2 = Raise NotImplementedError /\
  (NotImplementedError = ValueError \/ NotImplementedError = IndexError \/
   NotImplementedError = TypeError \/
   NotImplementedError = NotImplementedError).
Proof.
  split; [reflexivity|].
  exact (init_exceptions sample_float_repr sample_payloads
           sample_bad_technique [] new_object NotImplementedError eq_refl).
Defined.

Lemma tech_name_is_technique_name_witness :
  __init__ sample_float_repr sample_payloads sample_technique [] new_object
    = (sample_widget, Ok tt) /\
  tech_name (interactions [(1%nat, ClickCheckbox);
                           (0%nat, EnterValue (VInt 5))] sample_widget)
    = Ok (VStr "OCV").
Proof.
  split; [reflexivity|].
  exact (tech_name_is_technique_name sample_float_repr sample_payloads
           sample_technique [] sample_widget _ eq_refl).
Defined.

Lemma disabled_parameter_reads_None_witness :
  constructed sample_float_repr sample_payloads sample_widget /\
  exists rows values,
    w_tech_parameters sample_widget = Some rows /\
    tech_parameters_values sample_widget = Ok values /\
    length values = length rows.
Proof.
  split; [exact sample_widget_constructed|].
  destruct (disabled_parameter_reads_None sample_float_repr sample_payloads
              sample_widget sample_widget_constructed)
    as (rows & values & Hr & Hv & Hlen & _).
  exists rows, values. repeat split; assumption.
Defined.

Lemma required_parameter_always_selected_witness :
  CyclingParameter.required sample_time = true /\
  exists rows row d,
    w_tech_parameters (interactions [(0%nat, ClickCheckbox)] sample_widget)
      = Some rows /\
    rows !! 0%nat = Some row /\
    ck_value (w_check row) = true /\
    selected_tech_parameters
      (interactions [(0%nat, ClickCheckbox)] sample_widget) = Ok d.
Proof.
  split; [reflexivity|].
  destruct (required_parameter_always_selected sample_float_repr
              sample_payloads sample_technique [] sample_widget
              0 "time" sample_time [(0%nat, ClickCheckbox)]
              eq_refl eq_refl eq_refl)
    as (rows & row & d & Hr & Hrow & Hck & _ & Hd & _).
  exists rows, row, d. repeat split; assumption.
Defined.


Lemma click_switches_parameter_witness :
  exists d,
    selected_tech_parameters (interact 1 ClickCheckbox sample_widget) = Ok d /\
    d !! "I_range" = Some (VStr "keep").
Proof.
  destruct (click_switches_parameter sample_float_repr sample_payloads
              sample_widget ["time"; "I_range"] sample_rows 1%nat "I_range"
              sample_range_row sample_widget_constructed)
    as (d0 & d & _ & Hd & _ & Hon & _).
  - reflexivity.
  - reflexivity.
  - reflexivity.
  - reflexivity.
  - reflexivity.
  - exists d. split; [assumption|]. apply Hon; [reflexivity|discriminate].
Defined.

Lemma double_click_restores_widget_witness :
  constructed sample_float_repr sample_payloads sample_widget /\
  interact 1 ClickCheckbox (interact 1 ClickCheckbox sample_widget)
    = sample_widget.
Proof.
  split; [exact sample_widget_constructed|].
  exact (double_click_restores_widget sample_float_repr sample_payloads
           sample_widget 1 sample_widget_constructed).
Defined.

Lemma selected_after_construction_witness :
  __init__ sample_float_repr sample_payloads sample_limit_technique []
           new_object = (sample_limit_widget, Ok tt) /\
  exists d,
    selected_tech_parameters sample_limit_widget = Ok d /\
    d !! "limit_voltage_max" = Some (VFloat float_0).
Proof.
  split; [reflexivity|].
  destruct (selected_after_construction sample_float_repr sample_payloads
              sample_limit_technique [] sample_limit_widget eq_refl)
    as (d & Hd & Hiff).
  exists d. split; [assumption|].
  apply Hiff. exists sample_unset. eexists.
  split; [apply list_elem_of_here|]. split; [reflexivity|].
  split; [left; reflexivity|]. split; [reflexivity|discriminate].
Defined.

(** ** The units and the declared type *)

Section LabelProperties.

Variable float_repr : spec_float -> string.

Lemma row_step_units (e : row_event) (row : ParameterRow) :
  row_built row -> w_units (row_step row e) = w_units row.
Proof.
  intros [Hobs _]. destruct e as [b|[|v]]; simpl.
  - unfold assign_check_value. case_bool_decide; [done|].
    unfold notify. simpl. by rewrite Hobs.
  - destruct (ck_disabled (w_check row)); [done|].
    unfold assign_check_value. case_bool_decide; [done|].
    unfold notify. simpl. by rewrite Hobs.
  - destruct (wp_disabled (w_param row)); [done|].
    by destruct (take_entry (w_param row) v).
Qed.

(** X17: the text beside the value control is empty when the parameter has
    no description, even if it has units; otherwise it is the units, three
    non-breaking spaces and the description in italics between brackets.  No
    event on the row changes it. *)
Theorem units_text_of_row (p : CyclingParameter.t) (row : ParameterRow)
    (evs : list row_event) :
  build_parameter_widget float_repr (AParam p) = Ok row ->
  html_value (w_units (foldl row_step row evs)) =
    if bool_decide (CyclingParameter.description p = "") then ""
    else CyclingParameter.units p +:+ "&nbsp&nbsp&nbsp (<i>"
         +:+ CyclingParameter.description p +:+ "</i>)".
Proof.
  intros H. destruct (build_row_built float_repr p row H) as (Hb & _).
  assert (w_units (foldl row_step row evs) = w_units row) as ->.
  { clear H. revert row Hb. induction evs as [|e evs IH]; intros row Hb;
      simpl; [done|].
    destruct (row_step_built e row Hb) as [Hb' _].
    by rewrite (IH _ Hb'), row_step_units. }
  apply build_Ok_inv in H as (vt & pv & w0 & _ & _ & ->). reflexivity.
Qed.

(** X18: the kind of the value control depends on the declared type alone:
    two parameters with the same annotation of [value] are both accepted or
    both rejected, with the same exception, and when accepted their value
    controls have the same class, options, minimum and maximum. *)
Theorem dispatch_depends_on_annotation_only (p p' : CyclingParameter.t) :
  CyclingParameter.annotations_value p = CyclingParameter.annotations_value p' ->
  match build_parameter_widget float_repr (AParam p),
        build_parameter_widget float_repr (AParam p') with
  | Ok row, Ok row' =>
      wp_class (w_param row) = wp_class (w_param row') /\
      wp_options (w_param row) = wp_options (w_param row') /\
      wp_min (w_param row) = wp_min (w_param row') /\
      wp_max (w_param row) = wp_max (w_param row')
  | Raise e, Raise e' => e = e'
  | _, _ => False
  end.
Proof.
  intros Hann. unfold build_parameter_widget, types_of. rewrite Hann.
  unfold pick_value_type.
  set (types := List.filter _ _).
  case_bool_decide.
  - destruct (existsb _ types); cbn -[make_w_param]; [|done].
    by rewrite !make_w_param_class.
  - destruct types as [|vt ?]; cbn -[make_w_param]; [done|].
    destruct vt as [[c|args|args|o args|n]|v];
      rewrite ?make_w_param_class, ?make_w_param_Literal;
      repeat case_bool_decide; done.
Qed.

End LabelProperties.

Lemma units_text_of_row_witness :
  exists row,
    build_parameter_widget sample_float_repr (AParam sample_goto) = Ok row /\
    html_value (w_units (foldl row_step row [UserEvent ClickCheckbox])) = "".
Proof.
  eexists. split; [reflexivity|].
  exact (units_text_of_row sample_float_repr sample_goto _
           [UserEvent ClickCheckbox] eq_refl).
Defined.

Lemma dispatch_depends_on_annotation_only_witness :
  CyclingParameter.annotations_value sample_current
    = CyclingParameter.annotations_value sample_expression /\
  exists row row',
    build_parameter_widget sample_float_repr (AParam sample_current)
      = Ok row /\
    build_parameter_widget sample_float_repr (AParam sample_expression)
      = Ok row' /\
    wp_class (w_param row) = wp_class (w_param row').
Proof.
  split; [reflexivity|]. eexists. eexists.
  split; [reflexivity|]. split; [reflexivity|].
  exact (proj1 (dispatch_depends_on_annotation_only sample_float_repr
                  sample_current sample_expression eq_refl)).
Defined.

(** ** The bounds of the numeric inputs *)

Section BoundsProperties.

Variable float_repr : spec_float -> string.









End BoundsProperties.

